(** * Mumble Link helper: the record writer of [helper.py]

    A shallow embedding of [MumbleLinkHelper] (src/helper.py): the values
    that [json.loads] hands to the helper, the [struct] and [bytearray]
    operations the record is assembled with, the shared region, and the
    start-up path of [main].  Python exceptions are results of an error
    monad, the [logging] calls and the listener's bind are events of a
    trace. *)

From Stdlib Require Import ZArith Strings.Byte String Ascii.
From Stdlib Require Import Floats.SpecFloat.
From stdpp Require Import gmap strings list pretty.

Set Warnings "-register-all,-clear-no-such-hyp".

(** ** Exceptions and results *)

(** The exception classes the helper can meet.  All of them are
    subclasses of [Exception]. *)
Inductive exn :=
| AttributeError | TypeError | IndexError | KeyError | ValueError
| NameError | OverflowError | UnicodeEncodeError | struct_error | OSError
| ArgumentError.

Inductive result (A : Type) :=
| Ok (a : A)
| Raise (e : exn).
Arguments Ok {A} a.
Arguments Raise {A} e.

#[global] Instance result_ret : MRet result := @Ok.
#[global] Instance result_bind : MBind result := λ A B f m,
  match m with Ok a => f a | Raise e => Raise e end.

(** ** Python values *)

(** What [json.loads] returns: [None], [bool], [int] (unbounded), [float]
    (IEEE binary64, here a [spec_float]), [str] (a sequence of code points,
    lone surrogates included), [list] and [dict] with [str] keys. *)
Inductive pyval :=
| PyNone
| PyBool (b : bool)
| PyInt (z : Z)
| PyFloat (f : spec_float)
| PyStr (s : list Z)
| PyList (l : list pyval)
| PyDict (d : gmap string pyval).

(** A literal of the source as a [str]. *)
Definition str_of (s : string) : list Z :=
  (λ a, Z.of_N (N_of_ascii a)) <$> list_ascii_of_string s.

(** [data.get(key, dflt)]: only a [dict] has the method. *)
Definition get (data : pyval) (key : string) (dflt : pyval) : result pyval :=
  match data with
  | PyDict d => Ok (default dflt (d !! key))
  | _ => Raise AttributeError
  end.

(** [v[i]] for an [int] index.  The keys of a JSON object are strings, so
    an [int] is never among them. *)
Definition getitem (v : pyval) (i : nat) : result pyval :=
  match v with
  | PyList l => match l !! i with Some x => Ok x | None => Raise IndexError end
  | PyStr s => match s !! i with Some c => Ok (PyStr [c]) | None => Raise IndexError end
  | PyDict _ => Raise KeyError
  | _ => Raise TypeError
  end.

(** [v[:n]]. A [dict] refuses a slice as a key. *)
Definition getslice_to (v : pyval) (n : nat) : result pyval :=
  match v with
  | PyList l => Ok (PyList (take n l))
  | PyStr s => Ok (PyStr (take n s))
  | _ => Raise TypeError
  end.

(** [len(v)]. *)
Definition len (v : pyval) : result nat :=
  match v with
  | PyList l => Ok (length l)
  | PyStr s => Ok (length s)
  | PyDict d => Ok (size d)
  | _ => Raise TypeError
  end.

(** Truth value of [v] in [if v:]. *)
Definition truthy (v : pyval) : bool :=
  match v with
  | PyNone => false
  | PyBool b => b
  | PyInt z => negb (z =? 0)%Z
  | PyFloat f => match f with S754_zero _ => false | _ => true end
  | PyStr s => negb (bool_decide (s = []))
  | PyList l => match l with [] => false | _ => true end
  | PyDict d => negb (bool_decide (size d = 0))
  end.

(** ** Bytes *)

Definition byte_of_Z (z : Z) : byte :=
  default x00 (Byte.of_N (Z.to_N (z mod 256))).

Definition Z_of_byte (b : byte) : Z := Z.of_N (Byte.to_N b).

(** Little-endian bytes of an unsigned value, and back. *)
Definition le_bytes (n : nat) (z : Z) : list byte :=
  (λ i : nat, byte_of_Z (Z.shiftr z (8 * Z.of_nat i))) <$> seq 0 n.

Definition le_value (bs : list byte) : Z :=
  foldr (λ b acc, Z_of_byte b + 256 * acc)%Z 0%Z bs.

(** [l[off:off+n]] *)
Definition slice (off n : nat) (l : list byte) : list byte :=
  take n (drop off l).

(** [buf[off:off+len(bs)] = bs] on a [bytearray]: the slice bounds are
    clipped to the buffer, so the buffer grows when the bytes reach past
    its end. *)
Definition setslice (off : nat) (bs buf : list byte) : list byte :=
  take off buf ++ bs ++ drop (off + length bs) buf.

(** ** [str.encode('utf-16le')] *)

Definition utf16_unit (u : Z) : list byte := le_bytes 2 u.

(** One code point: a surrogate code point is refused (the codec's error
    handler is the default, strict), a code point past the basic plane
    becomes a surrogate pair. *)
Definition encode_codepoint (c : Z) : result (list byte) :=
  if (c <? 0xD800)%Z then Ok (utf16_unit c)
  else if (c <=? 0xDFFF)%Z then Raise UnicodeEncodeError
  else if (c <? 0x10000)%Z then Ok (utf16_unit c)
  else let c' := (c - 0x10000)%Z in
       Ok (utf16_unit (0xD800 + c' / 0x400) ++ utf16_unit (0xDC00 + c' mod 0x400)).

Fixpoint encode_utf16le (s : list Z) : result (list byte) :=
  match s with
  | [] => Ok []
  | c :: s' =>
      b ← encode_codepoint c;
      bs ← encode_utf16le s';
      Ok (b ++ bs)
  end.

(** [v.encode('utf-16le')]: a [list] (what a slice of a list is) has no
    such method. *)
Definition encode (v : pyval) : result (list byte) :=
  match v with
  | PyStr s => encode_utf16le s
  | _ => Raise AttributeError
  end.

(** ** The [struct] module *)

(** The two formats of the source: ['<I'] and ['<f']. *)
Inductive format := fmt_I | fmt_f.

(** ['<I']: an [int] ([bool] is one) in the range of 32 unsigned bits;
    there is no wrap-around, a value out of range is an error. *)
Definition pack_I (v : pyval) : result (list byte) :=
  match v with
  | PyInt z =>
      if decide (0 ≤ z < 2 ^ 32)%Z then Ok (le_bytes 4 z) else Raise struct_error
  | PyBool b => Ok (le_bytes 4 (if b then 1 else 0))
  | _ => Raise struct_error
  end.

(** The argument of ['<f'] as a C [double]: a [float] as it is, an [int]
    rounded to the nearest binary64; anything that has no such conversion,
    and an [int] too large for one, is [struct.error]. *)
Definition as_double (v : pyval) : result spec_float :=
  match v with
  | PyFloat f => Ok f
  | PyInt z =>
      match binary_normalize 53 1024 z 0 false with
      | S754_infinity _ => Raise struct_error
      | d => Ok d
      end
  | PyBool b => Ok (binary_normalize 53 1024 (if b then 1 else 0) 0 false)
  | _ => Raise struct_error
  end.

Definition sign_bit (s : bool) : Z := if s then 0x80000000 else 0.

(** The 32 bits of a binary32 value (24 bits of precision, exponents
    from -149). *)
Definition bits32 (f : spec_float) : Z :=
  match f with
  | S754_zero s => sign_bit s
  | S754_infinity s => sign_bit s + 0x7F800000
  | S754_nan => 0x7FC00000
  | S754_finite s m e =>
      sign_bit s +
      (if (Z.pos m <? 2 ^ 23) then Z.pos m
       else (e + 150) * 2 ^ 23 + (Z.pos m - 2 ^ 23))
  end%Z.

(** The C cast [(float)x] and the bytes of the result; a finite [double]
    that rounds to an infinity is [OverflowError]. *)
Definition pack_double (d : spec_float) : result (list byte) :=
  match d with
  | S754_finite s m e =>
      match binary_round 24 128 s m e with
      | S754_infinity _ => Raise OverflowError
      | y => Ok (le_bytes 4 (bits32 y))
      end
  | _ => Ok (le_bytes 4 (bits32 d))
  end.

(** ['<f'].  [struct] turns the [OverflowError] of an [int] argument into
    [struct.error] ("int too large to convert"); that of a [float] is
    left as it is. *)
Definition pack_f (v : pyval) : result (list byte) :=
  d ← as_double v;
  match pack_double d, v with
  | Raise OverflowError, (PyInt _ | PyBool _) => Raise struct_error
  | r, _ => r
  end.

Definition pack (fmt : format) (v : pyval) : result (list byte) :=
  match fmt with fmt_I => pack_I v | fmt_f => pack_f v end.

(** [struct.pack_into(fmt, buf, off, v)]: the four bytes must lie inside
    the buffer. *)
Definition pack_into (fmt : format) (buf : list byte) (off : nat) (v : pyval)
  : result (list byte) :=
  if decide (off + 4 ≤ length buf) then
    bs ← pack fmt v; Ok (setslice off bs buf)
  else Raise struct_error.

(** [struct.unpack_from('<I', buf, off)[0]] *)
Definition unpack_from_I (buf : list byte) (off : nat) : result Z :=
  if decide (off + 4 ≤ length buf) then Ok (le_value (slice off 4 buf))
  else Raise struct_error.

(** [bytes(v)] of a sequence of [int]s. Only a slice reaches it: a [list],
    or a [str], which [bytes] refuses without an encoding. *)
Definition byte_item (v : pyval) : result byte :=
  match v with
  | PyInt z => if decide (0 ≤ z < 256)%Z then Ok (byte_of_Z z) else Raise ValueError
  | PyBool b => Ok (if b then x01 else x00)
  | _ => Raise TypeError
  end.

Fixpoint byte_items (l : list pyval) : result (list byte) :=
  match l with
  | [] => Ok []
  | v :: l' => b ← byte_item v; bs ← byte_items l'; Ok (b :: bs)
  end.

Definition bytes (v : pyval) : result (list byte) :=
  match v with
  | PyList l => byte_items l
  | _ => Raise TypeError
  end.

(** ** The record *)

(** [for i in range(3): struct.pack_into('<f', binary_data, offset, v[i]); offset += 4],
    with [idx] the indices still to come. *)
Fixpoint pack_floats (idx : list nat) (v : pyval) (binary_data : list byte)
    (offset : nat) : result (list byte * nat) :=
  match idx with
  | [] => Ok (binary_data, offset)
  | i :: idx' =>
      x ← getitem v i;
      binary_data ← pack_into fmt_f binary_data offset x;
      pack_floats idx' v binary_data (offset + 4)
  end.

(** The body of the [try] of [update_mumble_link] up to the write to
    memory (lines 111 to 186): the record assembled in [binary_data]. *)
Definition pack_record (data : pyval) : result (list byte) :=
  let binary_data := replicate 2048 x00 in
  let offset := 0 in
  uiVersion ← get data "uiVersion" (PyInt 4);
  binary_data ← pack_into fmt_I binary_data offset uiVersion;
  let offset := offset + 4 in
  t ← unpack_from_I binary_data offset;
  let tick := (t + 1)%Z in
  binary_data ← pack_into fmt_I binary_data offset (PyInt tick);
  let offset := offset + 4 in
  pos ← get data "fAvatarPosition" (PyList [PyInt 0; PyInt 0; PyInt 0]);
  '(binary_data, offset) ← pack_floats (seq 0 3) pos binary_data offset;
  front ← get data "fAvatarFront" (PyList [PyInt 0; PyInt 0; PyInt 1]);
  '(binary_data, offset) ← pack_floats (seq 0 3) front binary_data offset;
  top ← get data "fAvatarTop" (PyList [PyInt 0; PyInt 1; PyInt 0]);
  '(binary_data, offset) ← pack_floats (seq 0 3) top binary_data offset;
  name ← (v ← get data "name" (PyStr (str_of "Foundry VTT User")); getslice_to v 255);
  name_wide ← (b ← encode name; Ok (take 510 b));
  let binary_data := setslice offset name_wide binary_data in
  let offset := offset + 512 in
  cam_pos ← get data "fCameraPosition" pos;
  '(binary_data, offset) ← pack_floats (seq 0 3) cam_pos binary_data offset;
  cam_front ← get data "fCameraFront" front;
  '(binary_data, offset) ← pack_floats (seq 0 3) cam_front binary_data offset;
  cam_top ← get data "fCameraTop" top;
  '(binary_data, offset) ← pack_floats (seq 0 3) cam_top binary_data offset;
  identity ← (v ← get data "identity" (PyStr (str_of "{}")); getslice_to v 255);
  identity_wide ← (b ← encode identity; Ok (take 510 b));
  let binary_data := setslice offset identity_wide binary_data in
  let offset := offset + 512 in
  context ← get data "context" (PyList []);
  n ← len context;
  let context_len := n `min` 256 in
  binary_data ← pack_into fmt_I binary_data offset (PyInt (Z.of_nat context_len));
  let offset := offset + 4 in
  binary_data ←
    (if truthy context then
       context_bytes ← (c ← getslice_to context 256; bytes c);
       Ok (setslice offset context_bytes binary_data)
     else Ok binary_data);
  let offset := offset + 256 in
  description ← (v ← get data "description" (PyStr (str_of "Foundry VTT")); getslice_to v 2047);
  desc_wide ← (b ← encode description; Ok (take 4094 b));
  let binary_data := setslice offset desc_wide binary_data in
  Ok binary_data.

(** ** Log records and effects *)

Inductive level := DEBUG | INFO | WARNING | ERROR.

(** The messages of the [logger] calls, by line of the source. *)
Inductive message :=
| UnsupportedPlatform (system : string)          (* line 38 *)
| MumbleLinkNotFound                             (* lines 59 and 74 *)
| FailedToMap                                    (* line 68 *)
| Connected                                      (* line 80 *)
| FailedToInitialize (e : exn)                   (* line 84 *)
| FailedToUpdate (e : exn)                       (* line 197 *)
| NewClient (websocket : nat)                    (* line 201 *)
| Updated                                        (* line 209 *)
| InvalidJSON (m : string)                       (* line 212 *)
| ErrorProcessing (e : exn)                      (* line 214 *)
| ClientDisconnected                             (* line 217 *)
| FailedToConnectExiting                         (* line 224 *)
| StartingServer (host : string) (port : Z)      (* line 227 *)
| ServerStarted                                  (* line 230 *)
| ShuttingDown                                   (* line 252 *)
| UnexpectedError (e : exn).                     (* line 254 *)

(** What the process does that can be seen from outside, other than the
    writes to the region: a log record, the bind of the listener
    ([websockets.serve]), the traceback of an exception nothing caught. *)
Inductive event :=
| Log (lvl : level) (msg : message)
| Bind (host : string) (port : Z)
| Traceback (e : exn).

(** ** The module's names *)

(** The names bound at module level: the imports of lines 8 to 16,
    [logger], the class and [main].  [ctypes] is imported inside
    [initialize_mumble_link] only, and is local to it. *)
Definition module_globals : list string :=
  ["asyncio"; "json"; "mmap"; "struct"; "websockets"; "logging"; "Path";
   "sys"; "platform"; "logger"; "MumbleLinkHelper"; "main"].

(** The lookup of a name that no enclosing function binds and that is not
    a builtin. *)
Definition global (name : string) : result () :=
  if decide (name ∈ module_globals) then Ok () else Raise NameError.

(** ** The helper object and the shared region *)

(** [self.mumble_memory]: the [mmap] object of the Unix path, with its
    contents and file position, or the address [MapViewOfFile] returned
    and the bytes behind it. *)
Inductive memory :=
| Mmap (contents : list byte) (pos : nat)
| View (addr : Z) (contents : list byte).

Definition region (mem : memory) : list byte :=
  match mem with Mmap c _ => c | View _ c => c end.

(** [not self.mumble_memory] is false for an [mmap] of non-zero length
    and for a non-zero address. *)
Definition memory_truthy (mem : memory) : bool :=
  match mem with
  | Mmap c _ => negb (bool_decide (length c = 0))
  | View a _ => negb (a =? 0)%Z
  end.

(** The attributes of a [MumbleLinkHelper].  [__init__] sets [clients],
    [mumble_link] and [link_name]; [mumble_memory] is an attribute only
    once [initialize_mumble_link] has assigned it ([None] here: no such
    attribute). *)
Record helper := Helper {
  clients : gset nat;
  mumble_link : pyval;
  link_name : option string;
  mumble_memory : option memory
}.

Definition set_mumble_memory (self : helper) (mem : memory) : helper :=
  Helper (clients self) (mumble_link self) (link_name self) (Some mem).

Definition set_clients (self : helper) (c : gset nat) : helper :=
  Helper c (mumble_link self) (link_name self) (mumble_memory self).

(** Lines 28 to 39, as a function of [platform.system()] and
    [os.getuid()]. *)
Definition _get_link_name (system : string) (uid : Z)
  : result (option string * list event) :=
  if decide (system = "Windows") then
    Ok (Some "MumbleLink", [])
  else if decide (system = "Linux") then
    _ ← global "os";
    Ok (Some ("/dev/shm/MumbleLink." +:+ pretty uid), [])
  else if decide (system = "Darwin") then
    _ ← global "os";
    Ok (Some ("/tmp/MumbleLink." +:+ pretty uid), [])
  else
    Ok (None, [Log ERROR (UnsupportedPlatform system)]).

(** Lines 188 to 194: the write of the assembled record.  The result
    is the memory after the call and how the call ended: [seek(0)] has
    moved the position of the mapping when [write] refuses the record. *)
Definition write_memory (system : string) (mem : memory)
    (binary_data : list byte) : memory * result () :=
  if decide (system = "Windows") then
    match global "ctypes" with
    | Raise e => (mem, Raise e)
    | Ok _ =>
        match mem with
        | View a c => (View a (setslice 0 binary_data c), Ok ())
        | Mmap _ _ => (mem, Raise ArgumentError)
        end
    end
  else
    match mem with
    | Mmap c _ =>
        (* seek(0) *)
        let mem := Mmap c 0 in
        (* write(binary_data), refused whole when the bytes do not fit;
           flush() *)
        if decide (length binary_data ≤ length c) then
          (Mmap (setslice 0 binary_data c) (length binary_data), Ok ())
        else (mem, Raise ValueError)
    | View _ _ => (mem, Raise AttributeError)
    end.

(** Lines 87 to 197.  The attribute test of line 89 is outside the [try]. *)
Definition update_mumble_link (system : string) (self : helper) (data : pyval)
  : result (helper * list event) :=
  match mumble_memory self with
  | None => Raise AttributeError
  | Some mem =>
      if negb (memory_truthy mem) then Ok (self, [])
      else
        match pack_record data with
        | Raise e => Ok (self, [Log ERROR (FailedToUpdate e)])
        | Ok binary_data =>
            let '(mem, written) := write_memory system mem binary_data in
            let self := set_mumble_memory self mem in
            match written with
            | Ok _ => Ok (self, [])
            | Raise e => Ok (self, [Log ERROR (FailedToUpdate e)])
            end
        end
  end.

(** ** The listener *)

Section listener.

(** [json.loads] on a text message: [None] stands for
    [json.JSONDecodeError]. *)
Variable json_loads : string → option pyval.

(** Lines 206 to 214: the body of the loop, for one message. *)
Definition on_message (system : string) (self : helper) (message : string)
  : helper * list event :=
  match json_loads message with
  | None => (self, [Log WARNING (InvalidJSON message)])
  | Some data =>
      match update_mumble_link system self data with
      | Raise e => (self, [Log ERROR (ErrorProcessing e)])
      | Ok (self, tr) =>
          (* the f-string of line 209 is evaluated whatever the level *)
          match get data "name" (PyStr (str_of "Unknown")) with
          | Ok _ => (self, tr ++ [Log DEBUG Updated])
          | Raise e => (self, tr ++ [Log ERROR (ErrorProcessing e)])
          end
      end
  end.

(** [async for message in websocket]: the messages of one connection,
    in order. *)
Fixpoint receive (system : string) (self : helper) (messages : list string)
  : helper * list event :=
  match messages with
  | [] => (self, [])
  | message :: rest =>
      let '(self, tr) := on_message system self message in
      let '(self, tr') := receive system self rest in
      (self, tr ++ tr')
  end.

(** Lines 199 to 219.  The connection delivers [messages] and then
    ends, with [websockets.exceptions.ConnectionClosed] when
    [closed] is set. *)
Definition handle_client (system : string) (self : helper) (websocket : nat)
    (messages : list string) (closed : bool) : helper * list event :=
  let self := set_clients self ({[ websocket ]} ∪ clients self) in
  let '(self, tr) := receive system self messages in
  (set_clients self (clients self ∖ {[ websocket ]}),
   [Log INFO (NewClient websocket)] ++ tr ++
   (if closed then [Log INFO ClientDisconnected] else [])).

End listener.

(** ** Start-up *)

(** What the process finds around it: [platform.system()], [os.getuid()],
    the named mappings and files that exist with their contents, the
    address [MapViewOfFile] gives, and whether the listener's address can
    be bound. *)
Record world := World {
  system : string;
  uid : Z;
  resource : string → option (list byte);
  map_view : Z;
  can_bind : bool
}.

(** Lines 23 to 26. *)
Definition __init__ (w : world) : result (helper * list event) :=
  '(name, tr) ← _get_link_name (system w) (uid w);
  Ok (Helper ∅ PyNone name None, tr).

(** The [try] of lines 44 to 81. *)
Definition open_mumble_link (w : world) (self : helper)
  : result (helper * bool * list event) :=
  if decide (system w = "Windows") then
    match link_name self ≫= resource w with
    | None => Ok (self, false, [Log WARNING MumbleLinkNotFound])
    | Some c =>
        let self := set_mumble_memory self (View (map_view w) (take 2048 c)) in
        if (map_view w =? 0)%Z then Ok (self, false, [Log ERROR FailedToMap])
        else Ok (self, true, [Log INFO Connected])
    end
  else
    match link_name self with
    | None => Raise TypeError (* Path(None) *)
    | Some name =>
        match resource w name with
        | None => Ok (self, false, [Log WARNING MumbleLinkNotFound])
        | Some c =>
            (* mmap.mmap(f.fileno(), 2048) needs a file of 2048 bytes *)
            if decide (2048 ≤ length c) then
              Ok (set_mumble_memory self (Mmap (take 2048 c) 0), true,
                  [Log INFO Connected])
            else Raise ValueError
        end
    end.

(** Lines 41 to 85. *)
Definition initialize_mumble_link (w : world) (self : helper)
  : helper * bool * list event :=
  match open_mumble_link w self with
  | Ok r => r
  | Raise e => (self, false, [Log ERROR (FailedToInitialize e)])
  end.

(** How [start_server] ends: it returns, it serves for ever, or an
    exception leaves it. *)
Inductive served :=
| Returned
| Serving (self : helper)
| Raised (e : exn).

(** Lines 221 to 231. *)
Definition start_server (w : world) (self : helper) (host : string) (port : Z)
  : list event * served :=
  let '(self, ok, tr) := initialize_mumble_link w self in
  if negb ok then (tr ++ [Log ERROR FailedToConnectExiting], Returned)
  else
    let tr := tr ++ [Log INFO (StartingServer host port); Bind host port] in
    if can_bind w then (tr ++ [Log INFO ServerStarted], Serving self)
    else (tr, Raised OSError).

(** How the process ends: with an exit status, or not at all. *)
Inductive exit :=
| Exit (code : Z)
| Running (self : helper).

(** Lines 233 to 255, after the arguments are parsed.  The helper is
    built outside the [try]: an exception of [__init__] ends the process
    with a traceback and status 1. *)
Definition main (w : world) (host : string) (port : Z) : list event * exit :=
  match __init__ w with
  | Raise e => ([Traceback e], Exit 1)
  | Ok (helper, tr) =>
      match start_server w helper host port with
      | (tr', Returned) => (tr ++ tr', Exit 0)
      | (tr', Serving self) => (tr ++ tr', Running self)
      | (tr', Raised e) => (tr ++ tr' ++ [Log ERROR (UnexpectedError e)], Exit 1)
      end
  end.

(** ** The record as a layout *)

(** The record field by field, as the table of section 4.2 of the
    specification lays it out: the encoded fields one after the other,
    each padded with zeros to its size.  [pack_record] is compared
    with it below. *)

(** The three floats of a vector. *)
Fixpoint floats_bytes (idx : list nat) (v : pyval) : result (list byte) :=
  match idx with
  | [] => Ok []
  | i :: idx' =>
      x ← getitem v i;
      b ← pack_f x;
      bs ← floats_bytes idx' v;
      Ok (b ++ bs)
  end.

(** A text of at most [chars] characters in at most [nbytes] bytes. *)
Definition text_bytes (v : pyval) (chars nbytes : nat) : result (list byte) :=
  s ← getslice_to v chars;
  b ← encode s;
  Ok (take nbytes b).

Definition context_bytes (context : pyval) : result (list byte) :=
  if truthy context then c ← getslice_to context 256; bytes c else Ok [].

Definition pad (n : nat) (bs : list byte) : list byte :=
  bs ++ replicate (n - length bs) x00.

(** The encoded fields of a record, in the order of the table; the tick
    is not among them, see [layout]. *)
Record fields := Fields {
  f_version : list byte;
  f_avatar_position : list byte;
  f_avatar_front : list byte;
  f_avatar_top : list byte;
  f_name : list byte;
  f_camera_position : list byte;
  f_camera_front : list byte;
  f_camera_top : list byte;
  f_identity : list byte;
  f_context_len : list byte;
  f_context : list byte;
  f_description : list byte
}.

(** The fields of a message, encoded in the order of the source. *)
Definition record_fields (data : pyval) : result fields :=
  uiVersion ← get data "uiVersion" (PyInt 4);
  version ← pack_I uiVersion;
  pos ← get data "fAvatarPosition" (PyList [PyInt 0; PyInt 0; PyInt 0]);
  avatar_position ← floats_bytes (seq 0 3) pos;
  front ← get data "fAvatarFront" (PyList [PyInt 0; PyInt 0; PyInt 1]);
  avatar_front ← floats_bytes (seq 0 3) front;
  top ← get data "fAvatarTop" (PyList [PyInt 0; PyInt 1; PyInt 0]);
  avatar_top ← floats_bytes (seq 0 3) top;
  name ← get data "name" (PyStr (str_of "Foundry VTT User"));
  name_wide ← text_bytes name 255 510;
  cam_pos ← get data "fCameraPosition" pos;
  camera_position ← floats_bytes (seq 0 3) cam_pos;
  cam_front ← get data "fCameraFront" front;
  camera_front ← floats_bytes (seq 0 3) cam_front;
  cam_top ← get data "fCameraTop" top;
  camera_top ← floats_bytes (seq 0 3) cam_top;
  identity ← get data "identity" (PyStr (str_of "{}"));
  identity_wide ← text_bytes identity 255 510;
  context ← get data "context" (PyList []);
  n ← len context;
  let context_len := le_bytes 4 (Z.of_nat (n `min` 256)) in
  context ← context_bytes context;
  description ← get data "description" (PyStr (str_of "Foundry VTT"));
  desc_wide ← text_bytes description 2047 4094;
  Ok (Fields version avatar_position avatar_front avatar_top name_wide
        camera_position camera_front camera_top identity_wide
        context_len context desc_wide).

(** The fields at their offsets: 0, 4 (the tick), 8, 20, 32, 44, 556,
    568, 580, 592, 1104, 1108 and 1364.  The description is the last
    field and comes with the rest of the 2048 bytes. *)
Definition layout (f : fields) : list byte :=
  f_version f ++ le_bytes 4 1 ++
  f_avatar_position f ++ f_avatar_front f ++ f_avatar_top f ++
  pad 512 (f_name f) ++
  f_camera_position f ++ f_camera_front f ++ f_camera_top f ++
  pad 512 (f_identity f) ++
  f_context_len f ++ pad 256 (f_context f) ++
  pad 684 (f_description f).

Definition record_layout (data : pyval) : result (list byte) :=
  f ← record_fields data; Ok (layout f).

(** ** What the consumer reads *)

(** [struct.unpack('<f', bs)[0]]: the binary32 value of four bytes. *)
Definition float_of_bits32 (x : Z) : spec_float :=
  let s := Z.testbit x 31 in
  let e := Z.land (Z.shiftr x 23) 0xFF in
  let m := Z.land x 0x7FFFFF in
  if (e =? 0)%Z then
    match m with Z.pos p => S754_finite s p (-149) | _ => S754_zero s end
  else if (e =? 255)%Z then
    if (m =? 0)%Z then S754_infinity s else S754_nan
  else
    match (m + 2 ^ 23)%Z with
    | Z.pos p => S754_finite s p (e - 150)
    | _ => S754_nan
    end.

Definition unpack_f (bs : list byte) : spec_float :=
  float_of_bits32 (le_value bs).

(** The three floats at an offset of a record. *)
Definition unpack_floats (off : nat) (rec : list byte) : list spec_float :=
  (λ i : nat, unpack_f (slice (off + 4 * i) 4 rec)) <$> seq 0 3.

(** The binary32 value of an integer. *)
Definition float32_of_Z (z : Z) : spec_float := binary_normalize 24 128 z 0 false.

(** The 16-bit units of a wide-character field, up to its terminator:
    the text of the field, trimmed of its padding. *)
Fixpoint units (bs : list byte) : list Z :=
  match bs with
  | lo :: hi :: rest => (Z_of_byte lo + 256 * Z_of_byte hi)%Z :: units rest
  | _ => []
  end.

Fixpoint until_nul (us : list Z) : list Z :=
  match us with
  | [] => []
  | u :: rest => if (u =? 0)%Z then [] else u :: until_nul rest
  end.

Definition decode_wide (bs : list byte) : list Z := until_nul (units bs).

(** ** Inputs of the statements *)

(** A text without surrogate code points, which is what
    [str.encode('utf-16le')] accepts. *)
Definition well_formed (s : list Z) : Prop :=
  Forall (λ c, ¬ (0xD800 ≤ c ≤ 0xDFFF)%Z) s.

(** The update of a message is dropped: packing it raises, and
    [update_mumble_link] on an opened region logs the exception and
    leaves the helper, its region included, as it was. *)
Definition dropped (data : pyval) : Prop :=
  ∃ e, pack_record data = Raise e ∧
    ∀ system self mem,
      mumble_memory self = Some mem → memory_truthy mem = true →
      update_mumble_link system self data =
        Ok (self, [Log ERROR (FailedToUpdate e)]).

(** The keys of the six vectors of a message. *)
Definition vector_keys : list string :=
  ["fAvatarPosition"; "fAvatarFront"; "fAvatarTop";
   "fCameraPosition"; "fCameraFront"; "fCameraTop"].

(** The helper after an update, whatever the update logged. *)
Definition updated (system : string) (self : helper) (data : pyval) : helper :=
  match update_mumble_link system self data with
  | Ok (self', _) => self'
  | Raise _ => self
  end.

(** The scenario of section 8 of the specification:
    [{"name":"Alice","fAvatarPosition":[1,2,3]}]. *)
Definition alice : pyval :=
  PyDict {[ "name" := PyStr (str_of "Alice");
            "fAvatarPosition" := PyList [PyInt 1; PyInt 2; PyInt 3] ]}.

(** A description of 343 characters. *)
Definition long_description : pyval :=
  PyDict {[ "description" := PyStr (replicate 343 97%Z) ]}.


(** A name of 301 characters that starts with a lone surrogate. *)
Definition surrogate_name : pyval :=
  PyDict {[ "name" := PyStr (0xD800%Z :: replicate 300 97%Z) ]}.

(** A vector with an element that is not a number. *)
Definition text_in_vector : pyval :=
  PyDict {[ "fAvatarFront" := PyList [PyStr (str_of "x"); PyInt 0; PyInt 1] ]}.

(** A region of 2048 bytes whose tick field holds 41, in a helper that
    has it mapped. *)
Definition region41 : list byte :=
  replicate 4 x00 ++ le_bytes 4 41 ++ replicate 2040 x00.

Definition mapped (c : list byte) : helper :=
  Helper ∅ PyNone (Some "/dev/shm/MumbleLink.1000") (Some (Mmap c 0)).

(** A machine on which nothing is mapped. *)
Definition nothing_mapped (system : string) : world :=
  World system 1000 (λ _, None) 0 true.

(** A parser for the listener's witnesses: it knows one message. *)
Definition loads_empty_object (message : string) : option pyval :=
  if decide (message = "{}") then Some (PyDict ∅) else None.

(** A name of 300 characters. *)
Definition long_name : pyval := PyDict {[ "name" := PyStr (replicate 300 97%Z) ]}.

(** The sizes of the encoded fields: the numbers are four bytes each, a
    vector is twelve, a text and the context stay within their budget. *)
Definition sized (f : fields) : Prop :=
  length (f_version f) = 4 ∧
  length (f_avatar_position f) = 12 ∧
  length (f_avatar_front f) = 12 ∧
  length (f_avatar_top f) = 12 ∧
  length (f_name f) ≤ 510 ∧
  length (f_camera_position f) = 12 ∧
  length (f_camera_front f) = 12 ∧
  length (f_camera_top f) = 12 ∧
  length (f_identity f) ≤ 510 ∧
  length (f_context_len f) = 4 ∧
  length (f_context f) ≤ 256 ∧
  length (f_description f) ≤ 4094.

(** Messages of the witnesses below. *)
Definition version_two : pyval := PyDict {[ "uiVersion" := PyInt 2 ]}.

Definition negative_version : pyval := PyDict {[ "uiVersion" := PyInt (-1) ]}.

Definition long_context : pyval :=
  PyDict {[ "context" := PyList (replicate 300 (PyInt 7)) ]}.

(** A text of the basic plane: no surrogate, no code point past U+FFFF,
    and no NUL. *)
Definition plain_text (s : list Z) : Prop :=
  Forall (λ c, (0 < c < 0xD800 ∨ 0xDFFF < c < 0x10000)%Z) s.

Definition bob : pyval :=
  PyDict {[ "name" := PyStr (str_of "Bob"); "identity" := PyStr (str_of "{}");
            "description" := PyStr (str_of "Tavern") ]}.

(** The keys [update_mumble_link] reads from a message. *)
Definition known_keys : list string :=
  ["uiVersion"; "fAvatarPosition"; "fAvatarFront"; "fAvatarTop"; "name";
   "fCameraPosition"; "fCameraFront"; "fCameraTop"; "identity"; "context";
   "description"].

(** A position of five elements, and a message with a key of its own. *)
Definition long_position : gmap string pyval :=
  {[ "fAvatarPosition" := PyList [PyInt 1; PyInt 2; PyInt 3; PyInt 4; PyInt 5] ]}.

(** A name whose 256th character is a lone surrogate. *)
Definition late_surrogate : gmap string pyval :=
  {[ "name" := PyStr (replicate 255 97%Z ++ [0xD800%Z]) ]}.

(** A helper on a Unix-like system whose [mmap] object is at file
    position [pos]. *)
Definition at_position (pos : nat) (c : list byte) : helper :=
  set_mumble_memory (mapped c) (Mmap c pos).

(** A parser that knows one message, a JSON array. *)
Definition loads_array (message : string) : option pyval :=
  if decide (message = "[1]") then Some (PyList [PyInt 1]) else None.

(** A Windows machine on which Mumble has made its mapping. *)
Definition mumble_running : world :=
  World "Windows" 1000
    (λ name, if decide (name = "MumbleLink") then Some region41 else None)
    4096 true.

(** The helper [main] serves with on that machine. *)
Definition serving_helper : helper :=
  Helper ∅ PyNone (Some "MumbleLink") (Some (View 4096 region41)).

(** A Unix machine with a link file, for a helper that has its name. *)
Definition unix_with_link : world :=
  World "Linux" 1000
    (λ name, if decide (name = "/dev/shm/MumbleLink.1000") then Some region41 else None)
    0 true.

Definition named_helper : helper :=
  Helper ∅ PyNone (Some "/dev/shm/MumbleLink.1000") None.

(** A message with a camera position of its own. *)
Definition with_camera : gmap string pyval :=
  {[ "fAvatarPosition" := PyList [PyInt 1; PyInt 2; PyInt 3];
     "fCameraPosition" := PyList [PyInt 4; PyInt 5; PyInt 6] ]}.

(** * Properties *)

(** ** Bytes and buffers *)

Lemma bind_Ok {A B} (f : A → result B) (a : A) : (Ok a ≫= f) = f a.
Proof. reflexivity. Qed.

Lemma bind_Raise {A B} (f : A → result B) (e : exn) :
  (Raise e ≫= f) = Raise e.
Proof. reflexivity. Qed.

Lemma length_le_bytes n z : length (le_bytes n z) = n.
Proof. unfold le_bytes. by rewrite length_fmap, length_seq. Qed.

Lemma length_pack_I v bs : pack_I v = Ok bs → length bs = 4.
Proof.
  destruct v; simpl; try discriminate.
  - intros [= <-]. apply length_le_bytes.
  - case_decide; [|discriminate]. intros [= <-]. apply length_le_bytes.
Qed.

Lemma length_pack_double d bs : pack_double d = Ok bs → length bs = 4.
Proof.
  destruct d as [s|s| |s m e]; simpl.
  1-3: intros [= <-]; apply length_le_bytes.
  destruct (binary_round 24 128 s m e); try discriminate;
    intros [= <-]; apply length_le_bytes.
Qed.

Lemma length_pack_f v bs : pack_f v = Ok bs → length bs = 4.
Proof.
  unfold pack_f. destruct (as_double v) as [d|]; [|discriminate].
  rewrite bind_Ok. destruct (pack_double d) as [b|e] eqn:Hd.
  - intros H. apply (length_pack_double d). rewrite Hd.
    by destruct v.
  - by destruct e, v.
Qed.

Lemma length_pack fmt v bs : pack fmt v = Ok bs → length bs = 4.
Proof. destruct fmt; [apply length_pack_I | apply length_pack_f]. Qed.

Lemma length_pad n bs : length (pad n bs) = n `max` length bs.
Proof. unfold pad. rewrite length_app, length_replicate. lia. Qed.

(** Two buffers, or results, that differ in the arithmetic of their
    sizes only. *)
Ltac same_bytes := repeat first [ lia | reflexivity | progress f_equal ].

(** The writer's invariant: the buffer is what was written so far,
    followed by zeros. *)
Lemma setslice_zeros (p bs : list byte) (k off : nat) :
  off = length p →
  setslice off bs (p ++ replicate k x00) = (p ++ bs) ++ replicate (k - length bs) x00.
Proof.
  intros ->. unfold setslice.
  rewrite take_app_length, drop_app_add, drop_replicate.
  by rewrite <- app_assoc.
Qed.

Lemma setslice_zeros_pad (p bs : list byte) (k n off : nat) :
  off = length p → length bs ≤ n → n ≤ k →
  setslice off bs (p ++ replicate k x00) = (p ++ pad n bs) ++ replicate (k - n) x00.
Proof.
  intros -> Hbs Hn. rewrite setslice_zeros by done. unfold pad.
  rewrite <- !app_assoc. do 2 f_equal.
  rewrite <- replicate_add. f_equal. lia.
Qed.

Lemma pack_into_zeros fmt (p : list byte) (k off : nat) v :
  off = length p → 4 ≤ k →
  pack_into fmt (p ++ replicate k x00) off v =
  (bs ← pack fmt v; Ok ((p ++ bs) ++ replicate (k - 4) x00)).
Proof.
  intros -> Hk. unfold pack_into.
  rewrite decide_True by (rewrite length_app, length_replicate; lia).
  destruct (pack fmt v) as [bs|e] eqn:Hbs; [|done].
  rewrite !bind_Ok, setslice_zeros by done.
  by rewrite (length_pack _ _ _ Hbs).
Qed.

Lemma length_floats_bytes idx v bs :
  floats_bytes idx v = Ok bs → length bs = 4 * length idx.
Proof.
  revert bs. induction idx as [|i idx IH]; intros bs; simpl.
  - by intros [= <-].
  - destruct (getitem v i) as [x|]; [|discriminate]. rewrite bind_Ok.
    destruct (pack_f x) as [b|] eqn:Hb; [|discriminate]. rewrite bind_Ok.
    destruct (floats_bytes idx v) as [bs'|]; [|discriminate].
    rewrite bind_Ok. intros [= <-].
    rewrite length_app, (length_pack_f _ _ Hb), (IH bs') by done. lia.
Qed.

Lemma pack_floats_zeros idx v (p : list byte) (k off : nat) :
  off = length p → 4 * length idx ≤ k →
  pack_floats idx v (p ++ replicate k x00) off =
  (bs ← floats_bytes idx v;
   Ok ((p ++ bs) ++ replicate (k - 4 * length idx) x00, off + 4 * length idx)).
Proof.
  revert p k off. induction idx as [|i idx IH]; intros p k off -> Hk.
  - simpl. rewrite app_nil_r. same_bytes.
  - simpl in *. destruct (getitem v i) as [x|]; [|done]. rewrite !bind_Ok.
    rewrite pack_into_zeros by (done || lia). unfold pack.
    destruct (pack_f x) as [b|] eqn:Hb; [|done]. rewrite !bind_Ok.
    rewrite IH by (rewrite ?length_app, ?(length_pack_f _ _ Hb); lia).
    destruct (floats_bytes idx v) as [bs|]; [|done]. rewrite !bind_Ok.
    rewrite <- !app_assoc. same_bytes.
Qed.

Lemma unpack_from_I_zeros (p : list byte) (k off : nat) :
  off = length p → 4 ≤ k →
  unpack_from_I (p ++ replicate k x00) off = Ok 0%Z.
Proof.
  intros -> Hk. unfold unpack_from_I, slice.
  rewrite decide_True by (rewrite length_app, length_replicate; lia).
  rewrite drop_app_length, take_replicate.
  replace (4 `min` k) with 4 by lia. reflexivity.
Qed.

Lemma length_vector v bs : floats_bytes (seq 0 3) v = Ok bs → length bs = 12.
Proof. intros H. by rewrite (length_floats_bytes _ _ _ H), length_seq. Qed.

Lemma length_text_bytes v chars n bs :
  text_bytes v chars n = Ok bs → length bs ≤ n.
Proof.
  unfold text_bytes. destruct (getslice_to v chars); [|discriminate].
  rewrite bind_Ok. destruct (encode _); [|discriminate].
  rewrite bind_Ok. intros [= <-]. rewrite length_take. lia.
Qed.

Lemma length_byte_items l bs : byte_items l = Ok bs → length bs = length l.
Proof.
  revert bs. induction l as [|v l IH]; intros bs; simpl.
  - by intros [= <-].
  - destruct (byte_item v); [|discriminate]. rewrite bind_Ok.
    destruct (byte_items l); [|discriminate]. rewrite bind_Ok.
    intros [= <-]. simpl. by rewrite (IH _ eq_refl).
Qed.

Lemma length_context_bytes v bs : context_bytes v = Ok bs → length bs ≤ 256.
Proof.
  unfold context_bytes. destruct (truthy v).
  - destruct v; simpl; try discriminate.
    intros H%length_byte_items. rewrite H, length_take. lia.
  - intros [= <-]. simpl. lia.
Qed.

Ltac raise_both := rewrite ?bind_Raise; reflexivity.

(** The sizes that the steps of the writer ask for. *)
Ltac sizes :=
  rewrite ?length_app, ?length_pad, ?length_le_bytes, ?length_seq;
  repeat match goal with
    | H : pack_I _ = Ok ?b |- _ =>
        lazymatch goal with
        | _ : length b = 4 |- _ => fail
        | _ => pose proof (length_pack_I _ _ H)
        end
    | H : floats_bytes (seq 0 3) _ = Ok ?b |- _ =>
        lazymatch goal with
        | _ : length b = 12 |- _ => fail
        | _ => pose proof (length_vector _ _ H)
        end
    | H : text_bytes _ _ ?n = Ok ?b |- _ =>
        lazymatch goal with
        | _ : length b ≤ n |- _ => fail
        | _ => pose proof (length_text_bytes _ _ _ _ H)
        end
    | H : context_bytes _ = Ok ?b |- _ =>
        lazymatch goal with
        | _ : length b ≤ 256 |- _ => fail
        | _ => pose proof (length_context_bytes _ _ H)
        end
    end;
  cbn [length]; lia.

Ltac vector H :=
  rewrite pack_floats_zeros by sizes;
  lazymatch goal with
  | |- context [mbind _ (floats_bytes ?i ?v)] =>
      destruct (floats_bytes i v) as [?bs|] eqn:H; [|raise_both]
  end;
  rewrite !bind_Ok; cbv beta iota; rewrite ?length_seq.

Lemma bind_text {B} v chars n (k : list byte → result B) :
  (getslice_to v chars ≫= λ s, (encode s ≫= λ b, Ok (take n b)) ≫= k) =
  (text_bytes v chars n ≫= k).
Proof.
  unfold text_bytes. destruct (getslice_to v chars) as [s|]; [|done].
  rewrite !bind_Ok. by destruct (encode s).
Qed.

Lemma setslice_nil off (buf : list byte) : setslice off [] buf = buf.
Proof. unfold setslice. simpl. by rewrite Nat.add_0_r, take_drop. Qed.

Lemma bind_context {B} context (p : list byte) kz off (k : list byte → result B) :
  off = length p → 256 ≤ kz →
  ((if truthy context then
      context_bytes ← (c ← getslice_to context 256; bytes c);
      Ok (setslice off context_bytes (p ++ replicate kz x00))
    else Ok (p ++ replicate kz x00)) ≫= k) =
  (bs ← context_bytes context; k ((p ++ pad 256 bs) ++ replicate (kz - 256) x00)).
Proof.
  intros Hoff Hkz. unfold context_bytes. destruct (truthy context) eqn:Ht.
  - destruct (getslice_to context 256 ≫= bytes) as [bs|] eqn:Hbs; [|done].
    rewrite !bind_Ok. f_equal. apply setslice_zeros_pad; [done| |done].
    apply (length_context_bytes context). unfold context_bytes. by rewrite Ht.
  - rewrite !bind_Ok. f_equal.
    rewrite <- (setslice_nil off (p ++ _)) at 1.
    apply setslice_zeros_pad; [done|simpl; lia|done].
Qed.

Ltac text H :=
  rewrite bind_text;
  lazymatch goal with
  | |- context [mbind _ (text_bytes ?v ?c ?n)] =>
      destruct (text_bytes v c n) as [?bs|] eqn:H; [|raise_both]
  end;
  rewrite !bind_Ok; cbv beta.

Theorem pack_record_layout data : pack_record data = record_layout data.
Proof.
  unfold pack_record, record_layout, record_fields.
  destruct data as [| | | | | |d]; try reflexivity.
  cbn [get]. rewrite !bind_Ok. cbv beta zeta.
  change (replicate 2048 x00) with ([] ++ replicate 2048 x00).
  rewrite pack_into_zeros by sizes. cbn [pack].
  destruct (pack_I _) as [version|] eqn:Hversion; [|raise_both].
  rewrite !bind_Ok. cbv beta.
  rewrite unpack_from_I_zeros by sizes. rewrite !bind_Ok. cbv beta.
  rewrite pack_into_zeros by sizes.
  change (pack fmt_I (PyInt (0 + 1))) with (Ok (le_bytes 4 1)).
  rewrite !bind_Ok. cbv beta.
  vector Hpos. vector Hfront. vector Htop.
  text Hname. rewrite (setslice_zeros_pad _ _ _ 512) by sizes.
  vector Hcpos. vector Hcfront. vector Hctop.
  text Hident. rewrite (setslice_zeros_pad _ _ _ 512) by sizes.
  destruct (len _) as [n|] eqn:Hn; [|raise_both].
  rewrite !bind_Ok. cbv beta.
  rewrite pack_into_zeros by sizes. cbn [pack pack_I].
  rewrite decide_True by lia. rewrite !bind_Ok. cbv beta.
  rewrite bind_context by sizes.
  destruct (context_bytes _) as [ctx|] eqn:Hctx; [|raise_both].
  rewrite !bind_Ok. cbv beta.
  text Hdesc. rewrite setslice_zeros by sizes.
  rewrite <- !app_assoc. cbn [app]. unfold layout.
  cbn [f_version f_avatar_position f_avatar_front f_avatar_top f_name
       f_camera_position f_camera_front f_camera_top f_identity
       f_context_len f_context f_description].
  change (pad 684 bs7) with (bs7 ++ replicate (684 - length bs7) x00).
  same_bytes.
Qed.

(** ** The layout of a packed record *)

Lemma Ok_inj {A} (a b : A) : Ok a = Ok b → a = b.
Proof. by intros [= ->]. Qed.

Lemma bind_inv {A B} (m : result A) (k : A → result B) (b : B) :
  (m ≫= k) = Ok b → ∃ a, m = Ok a ∧ k a = Ok b.
Proof. destruct m as [a|]; [|discriminate]. rewrite bind_Ok. by exists a. Qed.

Lemma get_inv data key dflt v :
  get data key dflt = Ok v → ∃ d, data = PyDict d ∧ v = default dflt (d !! key).
Proof. destruct data; try discriminate. intros [= <-]. by eexists. Qed.

(** What each step of a successful [record_fields] returned. *)
Lemma record_fields_inv data f :
  record_fields data = Ok f →
  ∃ d, data = PyDict d ∧
    let pos := default (PyList [PyInt 0; PyInt 0; PyInt 0]) (d !! "fAvatarPosition") in
    let front := default (PyList [PyInt 0; PyInt 0; PyInt 1]) (d !! "fAvatarFront") in
    let top := default (PyList [PyInt 0; PyInt 1; PyInt 0]) (d !! "fAvatarTop") in
    let context := default (PyList []) (d !! "context") in
    pack_I (default (PyInt 4) (d !! "uiVersion")) = Ok (f_version f) ∧
    floats_bytes (seq 0 3) pos = Ok (f_avatar_position f) ∧
    floats_bytes (seq 0 3) front = Ok (f_avatar_front f) ∧
    floats_bytes (seq 0 3) top = Ok (f_avatar_top f) ∧
    text_bytes (default (PyStr (str_of "Foundry VTT User")) (d !! "name")) 255 510
      = Ok (f_name f) ∧
    floats_bytes (seq 0 3) (default pos (d !! "fCameraPosition"))
      = Ok (f_camera_position f) ∧
    floats_bytes (seq 0 3) (default front (d !! "fCameraFront"))
      = Ok (f_camera_front f) ∧
    floats_bytes (seq 0 3) (default top (d !! "fCameraTop"))
      = Ok (f_camera_top f) ∧
    text_bytes (default (PyStr (str_of "{}")) (d !! "identity")) 255 510
      = Ok (f_identity f) ∧
    (∃ n, len context = Ok n ∧
          f_context_len f = le_bytes 4 (Z.of_nat (n `min` 256))) ∧
    context_bytes context = Ok (f_context f) ∧
    text_bytes (default (PyStr (str_of "Foundry VTT")) (d !! "description")) 2047 4094
      = Ok (f_description f).
Proof.
  unfold record_fields. intros H.
  apply bind_inv in H as (? & (d & -> & ->)%get_inv & H). exists d. split; [done|].
  cbn [get] in H.
  repeat lazymatch type of H with
    | (Ok _ ≫= _) = Ok _ => rewrite bind_Ok in H; cbv beta zeta in H
    | (_ ≫= _) = Ok _ => apply bind_inv in H as (? & ? & H)
    end.
  apply Ok_inj in H as <-. cbv zeta.
  cbn [f_version f_avatar_position f_avatar_front f_avatar_top f_name
       f_camera_position f_camera_front f_camera_top f_identity
       f_context_len f_context f_description].
  repeat split; try assumption. by eexists.
Qed.

Lemma record_fields_sized data f : record_fields data = Ok f → sized f.
Proof.
  intros (d & _ & H)%record_fields_inv. cbv zeta in H.
  destruct H as (?&?&?&?&?&?&?&?&?&(n&?&Hn)&?&?).
  unfold sized. rewrite Hn. repeat split; sizes.
Qed.

Lemma pack_record_fields data rec :
  pack_record data = Ok rec ↔ ∃ f, record_fields data = Ok f ∧ rec = layout f.
Proof.
  rewrite pack_record_layout. unfold record_layout.
  destruct (record_fields data) as [f|e]; rewrite ?bind_Ok, ?bind_Raise.
  - split.
    + intros <-%Ok_inj. by exists f.
    + by intros (f' & ->%Ok_inj & ->).
  - split; [done|]. by intros (f' & ? & _).
Qed.

Lemma length_pad_le n bs : length bs ≤ n → length (pad n bs) = n.
Proof. rewrite length_pad. lia. Qed.

Lemma slice_skip (p l : list byte) (k off n : nat) :
  length p = k → k ≤ off → slice off n (p ++ l) = slice (off - k) n l.
Proof. intros <- H. unfold slice. by rewrite drop_app_ge. Qed.

Lemma slice_here (x l : list byte) (n : nat) :
  length x = n → slice 0 n (x ++ l) = x.
Proof. intros <-. unfold slice. simpl. apply take_app_length. Qed.

Lemma drop_skip (p l : list byte) (k off : nat) :
  length p = k → k ≤ off → drop off (p ++ l) = drop (off - k) l.
Proof. intros <- H. by rewrite drop_app_ge. Qed.

(** The length of one chunk of a layout. *)
Ltac chunk :=
  first [ eassumption | apply length_le_bytes | apply length_pad_le; lia ].

(** The field at a given offset of a record in layout form. *)
Ltac field :=
  unfold layout;
  repeat (erewrite slice_skip; [|chunk|cbn; lia]; cbn [Nat.sub]);
  apply slice_here; chunk.

Section layout.

Variable f : fields.
Hypothesis Hf : sized f.

Lemma length_layout :
  length (layout f) = 2048 `max` (1364 + length (f_description f)).
Proof using Hf. destruct Hf as (?&?&?&?&?&?&?&?&?&?&?&?). unfold layout. sizes. Qed.

Lemma layout_version : slice 0 4 (layout f) = f_version f.
Proof using Hf. destruct Hf as (?&?&?&?&?&?&?&?&?&?&?&?). field. Qed.

Lemma layout_tick : slice 4 4 (layout f) = le_bytes 4 1.
Proof using Hf. destruct Hf as (?&?&?&?&?&?&?&?&?&?&?&?). field. Qed.

Lemma layout_avatar_position : slice 8 12 (layout f) = f_avatar_position f.
Proof using Hf. destruct Hf as (?&?&?&?&?&?&?&?&?&?&?&?). field. Qed.

Lemma layout_avatar_front : slice 20 12 (layout f) = f_avatar_front f.
Proof using Hf. destruct Hf as (?&?&?&?&?&?&?&?&?&?&?&?). field. Qed.

Lemma layout_avatar_top : slice 32 12 (layout f) = f_avatar_top f.
Proof using Hf. destruct Hf as (?&?&?&?&?&?&?&?&?&?&?&?). field. Qed.

Lemma layout_name : slice 44 512 (layout f) = pad 512 (f_name f).
Proof using Hf. destruct Hf as (?&?&?&?&?&?&?&?&?&?&?&?). field. Qed.

Lemma layout_camera_position : slice 556 12 (layout f) = f_camera_position f.
Proof using Hf. destruct Hf as (?&?&?&?&?&?&?&?&?&?&?&?). field. Qed.

Lemma layout_camera_front : slice 568 12 (layout f) = f_camera_front f.
Proof using Hf. destruct Hf as (?&?&?&?&?&?&?&?&?&?&?&?). field. Qed.

Lemma layout_camera_top : slice 580 12 (layout f) = f_camera_top f.
Proof using Hf. destruct Hf as (?&?&?&?&?&?&?&?&?&?&?&?). field. Qed.

Lemma layout_identity : slice 592 512 (layout f) = pad 512 (f_identity f).
Proof using Hf. destruct Hf as (?&?&?&?&?&?&?&?&?&?&?&?). field. Qed.

Lemma layout_context_len : slice 1104 4 (layout f) = f_context_len f.
Proof using Hf. destruct Hf as (?&?&?&?&?&?&?&?&?&?&?&?). field. Qed.

Lemma layout_context : slice 1108 256 (layout f) = pad 256 (f_context f).
Proof using Hf. destruct Hf as (?&?&?&?&?&?&?&?&?&?&?&?). field. Qed.

Lemma layout_description : drop 1364 (layout f) = pad 684 (f_description f).
Proof using Hf.
  destruct Hf as (?&?&?&?&?&?&?&?&?&?&?&?). unfold layout.
  repeat (erewrite drop_skip; [|chunk|cbn; lia]; cbn [Nat.sub]).
  reflexivity.
Qed.

End layout.

(** ** The tick (claim C1) *)

Lemma slice_app_l (l k : list byte) (off n : nat) :
  off + n ≤ length l → slice off n (l ++ k) = slice off n l.
Proof.
  intros H. unfold slice. rewrite drop_app_le by lia.
  apply take_app_le. rewrite length_drop. lia.
Qed.

Lemma pack_record_tick data rec :
  pack_record data = Ok rec → 2048 ≤ length rec ∧ slice 4 4 rec = le_bytes 4 1.
Proof.
  intros (f & Hf & ->)%pack_record_fields.
  apply record_fields_sized in Hf.
  rewrite length_layout, layout_tick by done. split; [lia|done].
Qed.

(** C1.  What the code does: the tick is read from the fresh, zeroed
    [binary_data] and not from the region, so a successful update writes
    the tick 1 whatever tick the region held before; the counter never
    advances past 1. *)
Theorem tick_is_one_after_update system self data self' c pos :
  mumble_memory self = Some (Mmap c pos) → c ≠ [] →
  update_mumble_link system self data = Ok (self', []) →
  ∃ c' pos', mumble_memory self' = Some (Mmap c' pos') ∧
             length c' = length c ∧ unpack_from_I c' 4 = Ok 1%Z.
Proof.
  intros Hmem Hc. unfold update_mumble_link. rewrite Hmem.
  cbn [memory_truthy]. rewrite bool_decide_false by (by destruct c).
  cbn [negb].
  destruct (pack_record data) as [rec|e] eqn:Hrec; [|discriminate].
  unfold write_memory.
  destruct (decide (system = "Windows")); [discriminate|].
  destruct (decide (length rec ≤ length c)) as [Hle|]; [|discriminate].
  intros [= <-]. apply pack_record_tick in Hrec as [Hlen Htick].
  eexists _, _. split; [reflexivity|].
  assert (setslice 0 rec c = rec ++ drop (length rec) c) as -> by done.
  split.
  - rewrite length_app, length_drop. lia.
  - unfold unpack_from_I.
    rewrite decide_True by (rewrite length_app; lia).
    rewrite slice_app_l, Htick by lia. reflexivity.
Qed.

Lemma tick_is_one_after_update_witness :
  ∃ c' pos',
    mumble_memory (updated "Linux" (mapped region41) (PyDict ∅))
      = Some (Mmap c' pos') ∧
    length c' = length region41 ∧ unpack_from_I c' 4 = Ok 1%Z.
Proof.
  apply (tick_is_one_after_update "Linux" (mapped region41) (PyDict ∅) _ region41 0).
  - reflexivity.
  - discriminate.
  - vm_compute. reflexivity.
Defined.

(** The region held the tick 41 and holds 1 after one update, and still 1
    after a second. *)
Lemma tick_after_two_updates :
  unpack_from_I region41 4 = Ok 41%Z ∧
  let self1 := updated "Linux" (mapped region41) (PyDict ∅) in
  let self2 := updated "Linux" self1 (PyDict ∅) in
  (region <$> mumble_memory self1) ≫= (λ c, Some (unpack_from_I c 4)) = Some (Ok 1%Z) ∧
  (region <$> mumble_memory self2) ≫= (λ c, Some (unpack_from_I c 4)) = Some (Ok 1%Z).
Proof. vm_compute. auto. Qed.

(** ** The size of the record (claim C2) *)

(** C2.  What the code does: the description is written at offset 1364
    by a slice assignment, which makes [binary_data] longer when the text
    has more than 684 bytes: the record is 2048 bytes only up to 342
    characters of description, and [1364 + len(desc_wide)] bytes, up to
    5458, beyond. *)
Theorem record_length d rec :
  pack_record (PyDict d) = Ok rec →
  ∃ desc_wide,
    text_bytes (default (PyStr (str_of "Foundry VTT")) (d !! "description"))
      2047 4094 = Ok desc_wide ∧
    length rec = 2048 `max` (1364 + length desc_wide).
Proof.
  intros (f & Hf & ->)%pack_record_fields.
  pose proof (record_fields_sized _ _ Hf) as Hsz.
  apply record_fields_inv in Hf as (d' & [= <-] & Hf). cbv zeta in Hf.
  exists (f_description f). split; [apply Hf|by apply length_layout].
Qed.

Lemma record_length_witness :
  ∃ rec, pack_record long_description = Ok rec ∧ length rec = 2050.
Proof.
  destruct (pack_record long_description) as [rec|e] eqn:Hrec;
    [|vm_compute in Hrec; discriminate Hrec].
  exists rec. split; [reflexivity|].
  destruct (record_length _ rec Hrec) as (desc_wide & Hdesc & ->).
  vm_compute in Hdesc. by injection Hdesc as <-.
Defined.

(** The record of 2050 bytes does not fit the mapping of 2048: the write
    raises, the update is dropped and the region keeps its contents. *)
Lemma long_description_dropped :
  update_mumble_link "Linux" (mapped region41) long_description =
  Ok (mapped region41, [Log ERROR (FailedToUpdate ValueError)]).
Proof. vm_compute. reflexivity. Qed.

(** ** The name of the region (claim C3) *)

(** C3.  What the code does: the module never imports [os], so the
    branches for Linux and macOS raise [NameError] at [os.getuid()]; only
    the Windows name is returned.  The identifiers are those of
    [platform.system()], capitalised: a lower-case one is an unsupported
    platform. *)
Theorem get_link_name_cases uid :
  _get_link_name "Windows" uid = Ok (Some "MumbleLink", []) ∧
  _get_link_name "Linux" uid = Raise NameError ∧
  _get_link_name "Darwin" uid = Raise NameError ∧
  _get_link_name "linux" uid = Ok (None, [Log ERROR (UnsupportedPlatform "linux")]).
Proof. repeat split. Qed.

(** ** The camera vectors (claim C8) *)

(** C8.  A message without the three camera keys has, at offsets 556,
    568 and 580, the bytes of its avatar vectors at 8, 20 and 32; and the
    record of [{"name":"Alice","fAvatarPosition":[1,2,3]}] holds the floats
    1, 2, 3 at both positions and the name Alice. *)
Theorem camera_defaults_to_avatar :
  (∀ d rec,
     d !! "fCameraPosition" = None →
     d !! "fCameraFront" = None →
     d !! "fCameraTop" = None →
     pack_record (PyDict d) = Ok rec →
     slice 556 12 rec = slice 8 12 rec ∧
     slice 568 12 rec = slice 20 12 rec ∧
     slice 580 12 rec = slice 32 12 rec) ∧
  (∃ rec,
     pack_record alice = Ok rec ∧
     unpack_floats 8 rec = float32_of_Z <$> [1; 2; 3]%Z ∧
     unpack_floats 556 rec = float32_of_Z <$> [1; 2; 3]%Z ∧
     decode_wide (slice 44 512 rec) = str_of "Alice").
Proof.
  split.
  - intros d rec Hpos Hfront Htop (f & Hf & ->)%pack_record_fields.
    pose proof (record_fields_sized _ _ Hf) as Hsz.
    apply record_fields_inv in Hf as (d' & [= <-] & Hf). cbv zeta in Hf.
    rewrite Hpos, Hfront, Htop in Hf. cbn [default] in Hf.
    destruct Hf as (_ & Hp & Hf & Ht & _ & Hcp & Hcf & Hct & _).
    rewrite Hp in Hcp. rewrite Hf in Hcf. rewrite Ht in Hct.
    apply Ok_inj in Hcp, Hcf, Hct.
    rewrite layout_camera_position, layout_camera_front, layout_camera_top,
      layout_avatar_position, layout_avatar_front, layout_avatar_top by done.
    by rewrite Hcp, Hcf, Hct.
  - destruct (pack_record alice) as [rec|e] eqn:Hrec;
      [|vm_compute in Hrec; discriminate Hrec].
    exists rec. split; [reflexivity|].
    vm_compute in Hrec. apply Ok_inj in Hrec as <-.
    vm_compute. auto.
Qed.

Lemma camera_defaults_to_avatar_witness :
  ∃ rec, pack_record alice = Ok rec ∧ slice 556 12 rec = slice 8 12 rec.
Proof.
  destruct (pack_record alice) as [rec|e] eqn:Hrec;
    [|vm_compute in Hrec; discriminate Hrec].
  exists rec. split; [reflexivity|].
  unfold alice in Hrec.
  lazymatch type of Hrec with
  | pack_record (PyDict ?d) = _ =>
      destruct (proj1 camera_defaults_to_avatar d rec) as [H _];
        [reflexivity..|exact Hrec|exact H]
  end.
Defined.

(** ** A failed encoding (claim C10) *)

(** C10.  The record is assembled in [binary_data] and the region is
    written after the last field only: when the encoding of a message
    raises, at whatever field, [update_mumble_link] returns normally with
    the helper, and so the region, as it was, and one error record in the
    log. *)
Theorem failed_encoding_leaves_region system self mem data e :
  mumble_memory self = Some mem →
  pack_record data = Raise e →
  update_mumble_link system self data =
    Ok (self, if memory_truthy mem then [Log ERROR (FailedToUpdate e)] else []).
Proof.
  intros Hmem Hrec. unfold update_mumble_link. rewrite Hmem, Hrec.
  by destruct (memory_truthy mem).
Qed.

Lemma failed_encoding_leaves_region_witness :
  update_mumble_link "Linux" (mapped region41) text_in_vector =
    Ok (mapped region41, [Log ERROR (FailedToUpdate struct_error)]).
Proof.
  apply (failed_encoding_leaves_region "Linux" (mapped region41) (Mmap region41 0)).
  - reflexivity.
  - vm_compute. reflexivity.
Defined.

Lemma set_mumble_memory_same self mem :
  mumble_memory self = Some mem → set_mumble_memory self mem = self.
Proof. destruct self. cbn. by intros ->. Qed.

(** X11: the write is all or nothing.  After an update on a mapped
    region one of three things has happened.  Nothing: the helper is
    what it was.  Or the record did not fit: the bytes of the region are
    what they were, [seek(0)] has put the mapping at position 0, and
    [ValueError] is logged.  Or the region starts with the whole record
    of the message, which fits it, the mapping is positioned after it
    and nothing is logged.  A part of a record is never written. *)
Lemma update_writes_whole_record system self data self' tr c pos :
  mumble_memory self = Some (Mmap c pos) →
  update_mumble_link system self data = Ok (self', tr) →
  self' = self ∨
  (∃ rec, pack_record data = Ok rec ∧ length c < length rec ∧
          self' = set_mumble_memory self (Mmap c 0) ∧
          tr = [Log ERROR (FailedToUpdate ValueError)]) ∨
  (∃ rec, pack_record data = Ok rec ∧ length rec ≤ length c ∧
          self' = set_mumble_memory self
                    (Mmap (rec ++ drop (length rec) c) (length rec)) ∧
          tr = []).
Proof.
  intros Hmem. unfold update_mumble_link. rewrite Hmem.
  destruct (negb _); [intros [= <- _]; by left|].
  destruct (pack_record data) as [rec|e]; [|intros [= <- _]; by left].
  unfold write_memory.
  destruct (decide (system = "Windows")).
  { intros [= <- _]. left. by apply set_mumble_memory_same. }
  destruct (decide (length rec ≤ length c)); intros [= <- <-]; right.
  - right. by exists rec.
  - left. exists rec. repeat split; (done || lia).
Qed.

(** ** Short vectors (claim C6) *)






(** ** The text fields (claim C7) *)

Lemma encode_utf16le_well_formed s :
  well_formed s → ∃ b, encode_utf16le s = Ok b.
Proof.
  induction 1 as [|c s Hc Hs IH]; simpl; [by eexists|].
  destruct IH as [b IH]. unfold encode_codepoint.
  repeat case_match; rewrite ?bind_Ok, ?IH, ?bind_Ok; try by eexists.
  exfalso. apply Hc. lia.
Qed.

Lemma well_formed_take n s : well_formed s → well_formed (take n s).
Proof. apply Forall_take. Qed.

Lemma encode_utf16le_Ok s b : encode_utf16le s = Ok b → well_formed s.
Proof.
  revert b. induction s as [|c s IH]; intros b; [by constructor|].
  cbn [encode_utf16le].
  destruct (encode_codepoint c) as [bc|] eqn:Hc; [|discriminate].
  rewrite bind_Ok. destruct (encode_utf16le s) as [bs|]; [|discriminate].
  intros _. constructor; [|by eapply IH].
  unfold encode_codepoint in Hc. repeat case_match; (discriminate || lia).
Qed.

Lemma encode_utf16le_Raise s e :
  encode_utf16le s = Raise e → e = UnicodeEncodeError.
Proof.
  induction s as [|c s IH]; [discriminate|]. cbn [encode_utf16le].
  destruct (encode_codepoint c) as [bc|e'] eqn:Hc.
  - rewrite bind_Ok. destruct (encode_utf16le s) as [bs|e'']; [discriminate|].
    rewrite bind_Raise. intros [= <-]. by apply IH.
  - rewrite bind_Raise. intros [= <-]. unfold encode_codepoint in Hc.
    by repeat case_match; simplify_eq.
Qed.

Lemma text_bytes_well_formed s chars n :
  well_formed (take chars s) →
  ∃ bs, text_bytes (PyStr s) chars n = Ok bs ∧ length bs ≤ n.
Proof.
  intros H. unfold text_bytes. simpl.
  destruct (encode_utf16le_well_formed (take chars s)) as [b Hb]; [done|].
  rewrite Hb, bind_Ok. eexists. split; [done|]. rewrite length_take. lia.
Qed.

Lemma text_bytes_surrogate s chars n :
  ¬ well_formed (take chars s) →
  text_bytes (PyStr s) chars n = Raise UnicodeEncodeError.
Proof.
  intros H. unfold text_bytes. cbn [getslice_to]. rewrite bind_Ok. cbn [encode].
  destruct (encode_utf16le (take chars s)) as [b|e] eqn:Hb.
  - by apply encode_utf16le_Ok in Hb.
  - apply encode_utf16le_Raise in Hb as ->. by rewrite bind_Raise.
Qed.

Lemma pack_record_raise_dropped data e :
  pack_record data = Raise e →
  ∀ system self mem,
    mumble_memory self = Some mem → memory_truthy mem = true →
    update_mumble_link system self data =
      Ok (self, [Log ERROR (FailedToUpdate e)]).
Proof.
  intros Hrec system self mem Hmem Ht.
  unfold update_mumble_link. by rewrite Hmem, Ht, Hrec.
Qed.

(** A message with a text field that does not encode is dropped. *)
Lemma text_raise_dropped d :
  (∃ e, text_bytes (default (PyStr (str_of "Foundry VTT User")) (d !! "name"))
          255 510 = Raise e) ∨
  (∃ e, text_bytes (default (PyStr (str_of "{}")) (d !! "identity"))
          255 510 = Raise e) ∨
  (∃ e, text_bytes (default (PyStr (str_of "Foundry VTT")) (d !! "description"))
          2047 4094 = Raise e) →
  dropped (PyDict d).
Proof.
  intros H. destruct (pack_record (PyDict d)) as [rec|e] eqn:Hrec.
  - exfalso. apply pack_record_fields in Hrec as (f & Hf & _).
    apply record_fields_inv in Hf as (d' & [= <-] & Hf). cbv zeta in Hf.
    destruct Hf as (_ & _ & _ & _ & Hfn & _ & _ & _ & Hfi & _ & _ & Hfd).
    destruct H as [[e He]|[[e He]|[e He]]]; congruence.
  - exists e. split; [done|]. by apply pack_record_raise_dropped.
Qed.


(** The converse of [record_fields_inv]. *)
Lemma record_fields_intro d v ap af at' nw cp cf ct iw n cx dw :
  let pos := default (PyList [PyInt 0; PyInt 0; PyInt 0]) (d !! "fAvatarPosition") in
  let front := default (PyList [PyInt 0; PyInt 0; PyInt 1]) (d !! "fAvatarFront") in
  let top := default (PyList [PyInt 0; PyInt 1; PyInt 0]) (d !! "fAvatarTop") in
  let context := default (PyList []) (d !! "context") in
  pack_I (default (PyInt 4) (d !! "uiVersion")) = Ok v →
  floats_bytes (seq 0 3) pos = Ok ap →
  floats_bytes (seq 0 3) front = Ok af →
  floats_bytes (seq 0 3) top = Ok at' →
  text_bytes (default (PyStr (str_of "Foundry VTT User")) (d !! "name")) 255 510
    = Ok nw →
  floats_bytes (seq 0 3) (default pos (d !! "fCameraPosition")) = Ok cp →
  floats_bytes (seq 0 3) (default front (d !! "fCameraFront")) = Ok cf →
  floats_bytes (seq 0 3) (default top (d !! "fCameraTop")) = Ok ct →
  text_bytes (default (PyStr (str_of "{}")) (d !! "identity")) 255 510 = Ok iw →
  len context = Ok n →
  context_bytes context = Ok cx →
  text_bytes (default (PyStr (str_of "Foundry VTT")) (d !! "description")) 2047 4094
    = Ok dw →
  record_fields (PyDict d) =
    Ok (Fields v ap af at' nw cp cf ct iw (le_bytes 4 (Z.of_nat (n `min` 256))) cx dw).
Proof.
  cbv zeta. intros Hv Hap Haf Hat Hnw Hcp Hcf Hct Hiw Hn Hcx Hdw.
  unfold record_fields. cbn [get].
  rewrite bind_Ok, Hv, !bind_Ok; cbv beta.
  rewrite Hap, !bind_Ok; cbv beta. rewrite Haf, !bind_Ok; cbv beta.
  rewrite Hat, !bind_Ok; cbv beta. rewrite Hnw, !bind_Ok; cbv beta.
  rewrite Hcp, !bind_Ok; cbv beta. rewrite Hcf, !bind_Ok; cbv beta.
  rewrite Hct, !bind_Ok; cbv beta. rewrite Hiw, !bind_Ok; cbv beta.
  rewrite Hn, !bind_Ok; cbv beta zeta. rewrite Hcx, !bind_Ok; cbv beta.
  rewrite Hdw, !bind_Ok. reflexivity.
Qed.


(** C7, as the code has it.  What decides is the part of a text within
    its character budget: the first 255 characters of the name and of
    the identity, the first 2047 of the description.  When these hold no
    surrogate code point the texts are truncated and encoded, never
    refused: the name and the identity in at most 510 bytes, the
    description in at most 4094.  In a packed record the name and the
    identity are followed by zeros up to the 512 bytes of their fields,
    so that they end before the camera position and the context length,
    and the description, the last field, starts at 1364; a message made
    of the three texts alone, however long, is packed.  A text with a
    surrogate within its budget raises [UnicodeEncodeError] when it is
    encoded, and the update of its message is dropped. *)
Theorem text_fields_truncated d name identity description :
  default (PyStr (str_of "Foundry VTT User")) (d !! "name") = PyStr name →
  default (PyStr (str_of "{}")) (d !! "identity") = PyStr identity →
  default (PyStr (str_of "Foundry VTT")) (d !! "description") = PyStr description →
  (well_formed (take 255 name) → well_formed (take 255 identity) →
   well_formed (take 2047 description) →
   ∃ name_wide identity_wide desc_wide,
     (text_bytes (PyStr name) 255 510 = Ok name_wide ∧ length name_wide ≤ 510) ∧
     (text_bytes (PyStr identity) 255 510 = Ok identity_wide ∧
      length identity_wide ≤ 510) ∧
     (text_bytes (PyStr description) 2047 4094 = Ok desc_wide ∧
      length desc_wide ≤ 4094) ∧
     (∀ rec, pack_record (PyDict d) = Ok rec →
        slice 44 512 rec = pad 512 name_wide ∧
        slice 592 512 rec = pad 512 identity_wide ∧
        drop 1364 rec = pad 684 desc_wide) ∧
     (∃ rec,
        pack_record (PyDict {[ "name" := PyStr name; "identity" := PyStr identity;
                               "description" := PyStr description ]}) = Ok rec)) ∧
  (¬ well_formed (take 255 name) →
   text_bytes (PyStr name) 255 510 = Raise UnicodeEncodeError ∧
   dropped (PyDict d)) ∧
  (¬ well_formed (take 255 identity) →
   text_bytes (PyStr identity) 255 510 = Raise UnicodeEncodeError ∧
   dropped (PyDict d)) ∧
  (¬ well_formed (take 2047 description) →
   text_bytes (PyStr description) 2047 4094 = Raise UnicodeEncodeError ∧
   dropped (PyDict d)).
Proof.
  intros Hname Hident Hdesc. split; [|split; [|split]].
  - intros Hn Hi Hd.
    destruct (text_bytes_well_formed name 255 510 Hn) as (nw & Hnw & ?).
    destruct (text_bytes_well_formed identity 255 510 Hi) as (iw & Hiw & ?).
    destruct (text_bytes_well_formed description 2047 4094 Hd) as (dw & Hdw & ?).
    exists nw, iw, dw. do 3 (split; [done|]). split.
    + intros rec (f & Hf & ->)%pack_record_fields.
      pose proof (record_fields_sized _ _ Hf) as Hsz.
      apply record_fields_inv in Hf as (d' & [= <-] & Hf). cbv zeta in Hf.
      destruct Hf as (_ & _ & _ & _ & Hfn & _ & _ & _ & Hfi & _ & _ & Hfd).
      rewrite Hname, Hnw in Hfn. rewrite Hident, Hiw in Hfi.
      rewrite Hdesc, Hdw in Hfd. apply Ok_inj in Hfn, Hfi, Hfd.
      rewrite Hfn, Hfi, Hfd.
      by rewrite layout_name, layout_identity, layout_description.
    + eexists. apply pack_record_fields. eexists. split; [|reflexivity].
      apply record_fields_intro with (n := 0); cbv zeta;
        repeat lazymatch goal with
          | |- context [?m !! ?k] =>
              let v := eval vm_compute in (m !! k) in
              change (m !! k) with v
          end;
        cbn [default]; first [eassumption | vm_compute; reflexivity].
  - intros H%(text_bytes_surrogate _ 255 510). split; [done|].
    apply text_raise_dropped. left. rewrite Hname. by eexists.
  - intros H%(text_bytes_surrogate _ 255 510). split; [done|].
    apply text_raise_dropped. right; left. rewrite Hident. by eexists.
  - intros H%(text_bytes_surrogate _ 2047 4094). split; [done|].
    apply text_raise_dropped. right; right. rewrite Hdesc. by eexists.
Qed.

Lemma text_fields_truncated_witness :
  ∃ name_wide identity_wide desc_wide,
    (text_bytes (PyStr (replicate 255 97%Z ++ [0xD800%Z])) 255 510 = Ok name_wide ∧
     length name_wide ≤ 510) ∧
    (text_bytes (PyStr (str_of "{}")) 255 510 = Ok identity_wide ∧
     length identity_wide ≤ 510) ∧
    (text_bytes (PyStr (str_of "Foundry VTT")) 2047 4094 = Ok desc_wide ∧
     length desc_wide ≤ 4094) ∧
    (∀ rec, pack_record (PyDict late_surrogate) = Ok rec →
       slice 44 512 rec = pad 512 name_wide ∧
       slice 592 512 rec = pad 512 identity_wide ∧
       drop 1364 rec = pad 684 desc_wide) ∧
    (∃ rec,
       pack_record (PyDict {[ "name" := PyStr (replicate 255 97%Z ++ [0xD800%Z]);
                              "identity" := PyStr (str_of "{}");
                              "description" := PyStr (str_of "Foundry VTT") ]})
       = Ok rec).
Proof.
  apply (proj1 (text_fields_truncated late_surrogate
                  (replicate 255 97%Z ++ [0xD800%Z]) (str_of "{}")
                  (str_of "Foundry VTT") eq_refl eq_refl eq_refl)).
  - rewrite take_app_length' by done.
    apply Forall_forall. intros c [-> _]%elem_of_replicate. lia.
  - unfold well_formed, str_of. simpl. repeat constructor; lia.
  - unfold well_formed, str_of. simpl. repeat constructor; lia.
Defined.

(** The claim fails at a name of 301 characters that starts with a lone
    surrogate, which [json.loads] accepts: the overlong text is not
    truncated but refused, with [UnicodeEncodeError]. *)
Lemma surrogate_name_rejected :
  pack_record surrogate_name = Raise UnicodeEncodeError ∧
  ¬ ∃ rec, pack_record surrogate_name = Ok rec.
Proof.
  assert (pack_record surrogate_name = Raise UnicodeEncodeError) as H
    by (vm_compute; reflexivity).
  split; [done|]. intros [rec Hrec]. congruence.
Qed.

(** ** How [main] starts *)

Lemma init_cases w :
  (system w = "Windows" ∧
   __init__ w = Ok (Helper ∅ PyNone (Some "MumbleLink") None, [])) ∨
  ((system w = "Linux" ∨ system w = "Darwin") ∧ __init__ w = Raise NameError) ∨
  ((system w ∉ ["Windows"; "Linux"; "Darwin"]) ∧
   __init__ w = Ok (Helper ∅ PyNone None None,
                    [Log ERROR (UnsupportedPlatform (system w))])).
Proof.
  unfold __init__, _get_link_name.
  destruct (decide (system w = "Windows")) as [HW|HW]; [by left|].
  destruct (decide (system w = "Linux")) as [HL|HL]; [right; left; by auto|].
  destruct (decide (system w = "Darwin")) as [HD|HD]; [right; left; by auto|].
  right; right. split; [set_solver|done].
Qed.

(** The server runs on Windows only, with a view of the mapping. *)
Lemma main_running w host port tr self :
  main w host port = (tr, Running self) →
  system w = "Windows" ∧
  ∃ mem, mumble_memory self = Some mem ∧ memory_truthy mem = true.
Proof.
  unfold main. destruct (init_cases w) as [[HW ->]|[[HL ->]|[HU ->]]].
  - unfold start_server, initialize_mumble_link, open_mumble_link.
    rewrite decide_True by done. cbn [link_name mbind option_bind].
    destruct (resource w "MumbleLink") as [c|]; [|discriminate].
    destruct (map_view w =? 0)%Z eqn:Hz; [discriminate|]. cbn [negb].
    destruct (can_bind w); [|discriminate]. intros [= _ <-].
    split; [done|]. eexists. split; [reflexivity|].
    cbn [memory_truthy]. by rewrite Hz.
  - discriminate.
  - assert (system w ≠ "Windows") by set_solver.
    unfold start_server, initialize_mumble_link, open_mumble_link.
    rewrite decide_False by done. cbn [link_name negb]. discriminate.
Qed.

(** ** Malformed messages (claim C9) *)


Lemma setslice_whole (rec c : list byte) :
  length rec = length c → setslice 0 rec c = rec.
Proof.
  intros H. unfold setslice. simpl. rewrite H, drop_all. apply app_nil_r.
Qed.

Lemma update_writes_record system self data rec c pos :
  system ≠ "Windows" →
  mumble_memory self = Some (Mmap c pos) → c ≠ [] →
  pack_record data = Ok rec → length rec = length c →
  update_mumble_link system self data =
    Ok (set_mumble_memory self (Mmap rec (length rec)), []).
Proof.
  intros Hsys Hmem Hc Hrec Hlen. unfold update_mumble_link.
  rewrite Hmem, Hrec. cbn [memory_truthy].
  rewrite bool_decide_false by (by destruct c). cbn [negb].
  unfold write_memory. rewrite decide_False, decide_True by (done || lia).
  by rewrite setslice_whole.
Qed.

Lemma pack_record_dict data rec :
  pack_record data = Ok rec → ∃ d, data = PyDict d.
Proof.
  intros (f & (d & -> & _)%record_fields_inv & _)%pack_record_fields.
  by exists d.
Qed.

(** On Windows the write raises before [memmove] is called. *)
Lemma update_windows self mem data :
  mumble_memory self = Some mem → memory_truthy mem = true →
  update_mumble_link "Windows" self data =
    Ok (self, [Log ERROR (FailedToUpdate
                 match pack_record data with Ok _ => NameError | Raise e => e end)]).
Proof.
  intros Hmem Ht. unfold update_mumble_link. rewrite Hmem, Ht. cbn [negb].
  destruct (pack_record data) as [rec|e]; [|done].
  unfold write_memory. rewrite decide_True by done.
  change (global "ctypes") with (@Raise () NameError). cbv iota.
  by rewrite (set_mumble_memory_same self mem Hmem).
Qed.

(** C9, as the code has it.  A message that [json.loads] refuses changes
    nothing but the log, where it leaves a warning, and the loop goes
    on with the messages that follow, which are handled as if the
    malformed one had not been sent.  The message that follows is
    processed but not written: whenever [main] has the server running,
    the write of [update_mumble_link] raises [NameError] on [ctypes], so
    that after a malformed message and a well-formed one the region is
    as it was, a failed update is in the log, and so is the record that
    says the link was updated. *)
Theorem malformed_message_skipped
    (json_loads : string → option pyval) sys self websocket bad :
  json_loads bad = None →
  on_message json_loads sys self bad = (self, [Log WARNING (InvalidJSON bad)]) ∧
  (∀ rest,
     receive json_loads sys self (bad :: rest) =
     ((receive json_loads sys self rest).1,
      Log WARNING (InvalidJSON bad) :: (receive json_loads sys self rest).2)) ∧
  (∀ w host port tr0 good data closed,
     main w host port = (tr0, Running self) →
     json_loads good = Some data →
     let '(self', tr) :=
       handle_client json_loads (system w) self websocket [bad; good] closed in
     mumble_memory self' = mumble_memory self ∧
     Log WARNING (InvalidJSON bad) ∈ tr ∧
     ∃ e, Log ERROR (FailedToUpdate e) ∈ tr ∧
          (∀ rec, pack_record data = Ok rec →
                  e = NameError ∧ Log DEBUG Updated ∈ tr)).
Proof.
  intros Hbad.
  assert (∀ sys self, on_message json_loads sys self bad
          = (self, [Log WARNING (InvalidJSON bad)])) as Hon.
  { intros sys' self'. unfold on_message. by rewrite Hbad. }
  split; [done|]. split.
  - intros rest. simpl. rewrite Hon.
    by destruct (receive json_loads sys self rest).
  - intros w host port tr0 good data closed Hmain Hgood.
    destruct (main_running _ _ _ _ _ Hmain) as (-> & mem & Hmem & Ht).
    unfold handle_client. cbn [receive].
    set (self0 := set_clients self _). rewrite Hon.
    unfold on_message. rewrite Hgood.
    rewrite (update_windows self0 mem data) by done.
    destruct (pack_record data) as [rec|e] eqn:Hrec.
    + destruct (pack_record_dict _ _ Hrec) as [d ->]. cbn [get].
      split; [done|]. split; [set_solver|].
      exists NameError. split; [set_solver|]. intros _ _. split; [done|set_solver].
    + destruct (get data "name" _);
        (split; [done|]; split; [set_solver|]; exists e; split; [set_solver|done]).
Qed.

Lemma malformed_message_skipped_witness :
  on_message loads_empty_object "Windows" serving_helper "{oops"
    = (serving_helper, [Log WARNING (InvalidJSON "{oops")]) ∧
  (∀ rest,
     receive loads_empty_object "Windows" serving_helper ("{oops" :: rest) =
     ((receive loads_empty_object "Windows" serving_helper rest).1,
      Log WARNING (InvalidJSON "{oops")
        :: (receive loads_empty_object "Windows" serving_helper rest).2)) ∧
  (let '(self', tr) :=
     handle_client loads_empty_object (system mumble_running) serving_helper 7
       ["{oops"; "{}"] false in
   mumble_memory self' = mumble_memory serving_helper ∧
   Log WARNING (InvalidJSON "{oops") ∈ tr ∧
   ∃ e, Log ERROR (FailedToUpdate e) ∈ tr ∧
        (∀ rec, pack_record (PyDict ∅) = Ok rec →
                e = NameError ∧ Log DEBUG Updated ∈ tr)).
Proof.
  destruct (malformed_message_skipped loads_empty_object "Windows"
              serving_helper 7 "{oops") as (Hskip & Hnext & Hrun).
  - reflexivity.
  - split; [exact Hskip|]. split; [exact Hnext|].
    apply (Hrun mumble_running "localhost" 23456%Z
             [Log INFO Connected; Log INFO (StartingServer "localhost" 23456);
              Bind "localhost" 23456; Log INFO ServerStarted]
             "{}" (PyDict ∅) false); reflexivity.
Defined.

(** The scenario of section 8, run where the server runs: Mumble has
    made its mapping, [main] serves, and a connection sends a malformed
    message and then [{}].  The region still holds what Mumble put
    there. *)
Lemma malformed_then_well_formed_served :
  (main mumble_running "localhost" 23456).2 = Running serving_helper ∧
  handle_client loads_empty_object "Windows" serving_helper 7
    ["{oops"; "{}"] false =
  (serving_helper,
   [Log INFO (NewClient 7); Log WARNING (InvalidJSON "{oops");
    Log ERROR (FailedToUpdate NameError); Log DEBUG Updated]).
Proof. split; vm_compute; reflexivity. Qed.

(** The same connection on the [mmap] path, which no run of [main]
    reaches (claim C3): there the region ends up holding the record of
    [{}]. *)
Lemma malformed_then_well_formed :
  let run := handle_client loads_empty_object "Linux" (mapped region41) 7
               ["{oops"; "{}"] false in
  run.2 = [Log INFO (NewClient 7); Log WARNING (InvalidJSON "{oops");
           Log DEBUG Updated] ∧
  clients run.1 = ∅ ∧
  Ok (region <$> mumble_memory run.1) = (rec ← pack_record (PyDict ∅); Ok (Some rec)).
Proof. vm_compute. split; [reflexivity|split; reflexivity]. Qed.

(** ** Start-up (claims C4 and C5) *)

(** C4, as the code has it.  On a platform that is none of the three,
    [_get_link_name] logs the condition and returns [None];
    [initialize_mumble_link] then fails on [Path(None)], [start_server]
    logs that it gives up and returns before the listener is bound, and
    [main] returns: the process ends with status 0. *)
Theorem unsupported_platform_exits w host port :
  system w ∉ ["Windows"; "Linux"; "Darwin"] →
  main w host port =
    ([Log ERROR (UnsupportedPlatform (system w));
      Log ERROR (FailedToInitialize TypeError);
      Log ERROR FailedToConnectExiting],
     Exit 0).
Proof.
  intros Hsys.
  assert (system w ≠ "Windows" ∧ system w ≠ "Linux" ∧ system w ≠ "Darwin")
    as (HW & HL & HD) by set_solver.
  unfold main, __init__, _get_link_name.
  rewrite !decide_False by done. rewrite bind_Ok.
  unfold start_server, initialize_mumble_link, open_mumble_link.
  cbn [link_name]. by rewrite decide_False by done.
Qed.

Lemma unsupported_platform_exits_witness :
  main (nothing_mapped "FreeBSD") "localhost" 23456 =
    ([Log ERROR (UnsupportedPlatform "FreeBSD");
      Log ERROR (FailedToInitialize TypeError);
      Log ERROR FailedToConnectExiting],
     Exit 0).
Proof.
  apply (unsupported_platform_exits (nothing_mapped "FreeBSD")).
  cbn [system nothing_mapped]. intros H.
  repeat (apply elem_of_cons in H as [H|H]; [discriminate H|]).
  by apply elem_of_nil in H.
Defined.

(** The claim fails on FreeBSD: the exit status is 0. *)
Lemma unsupported_platform_status_zero :
  ¬ ∃ code, (main (nothing_mapped "FreeBSD") "localhost" 23456).2 = Exit code ∧
            code ≠ 0%Z.
Proof. intros (code & [= <-] & Hcode). by apply Hcode. Qed.



(** On Linux, with no link file, there is no warning: the process ends
    with the traceback of [__init__]. *)
Lemma missing_region_on_linux :
  main (nothing_mapped "Linux") "localhost" 23456 = ([Traceback NameError], Exit 1).
Proof. reflexivity. Qed.


(** A helper whose region was never opened has no [mumble_memory]
    attribute: an update on it would raise, at the test of line 89. *)
Lemma update_before_initialize system c l n data :
  update_mumble_link system (Helper c l n None) data = Raise AttributeError.
Proof. reflexivity. Qed.

(** Opening the region logs that it is connected. *)
Lemma initialize_connected w self self' tr :
  initialize_mumble_link w self = (self', true, tr) → tr = [Log INFO Connected].
Proof.
  unfold initialize_mumble_link, open_mumble_link.
  repeat case_match; simplify_eq; congruence.
Qed.

(** X19: the listener and the region.  The listener is bound in one
    case only: the region was opened before, and the log says so. *)
Lemma bind_needs_region w host port :
  Bind host port ∈ (main w host port).1 →
  Log INFO Connected ∈ (main w host port).1.
Proof.
  unfold main. destruct (__init__ w) as [[self tr]|e] eqn:Hinit.
  - assert (Bind host port ∉ tr) as Htr.
    { unfold __init__, _get_link_name in Hinit.
      repeat case_match; simplify_eq; set_solver. }
    unfold start_server.
    destruct (initialize_mumble_link w self) as [[self' ok] tr'] eqn:Hopen.
    destruct ok; cbn [negb].
    + apply initialize_connected in Hopen as ->.
      destruct (can_bind w); cbn [fst]; set_solver.
    + unfold initialize_mumble_link, open_mumble_link in Hopen.
      cbn [fst]. intros [?|Hin]%elem_of_app; [done|]. exfalso.
      repeat case_match; simplify_eq; set_solver.
  - cbn [fst]. set_solver.
Qed.

(** ** Numbers read back *)

Lemma Z_of_byte_of_Z z : Z_of_byte (byte_of_Z z) = (z mod 256)%Z.
Proof.
  unfold Z_of_byte, byte_of_Z.
  assert (0 ≤ z mod 256 < 256)%Z as Hz by (apply Z.mod_pos_bound; lia).
  destruct (Byte.of_N (Z.to_N (z mod 256))) as [b|] eqn:Hb.
  - apply Byte.to_of_N in Hb. simpl. rewrite Hb. lia.
  - apply Byte.of_N_None_iff in Hb. lia.
Qed.

Lemma le_bytes_S n z : le_bytes (S n) z = byte_of_Z z :: le_bytes n (z ≫ 8).
Proof.
  unfold le_bytes. cbn [seq fmap list_fmap]. f_equal.
  rewrite <- fmap_S_seq, <- list_fmap_compose. apply list_fmap_ext.
  intros _ i _. simpl. rewrite Z.shiftr_shiftr by lia. do 2 f_equal. lia.
Qed.

Lemma le_value_le_bytes n z :
  (0 ≤ z)%Z → le_value (le_bytes n z) = (z mod 2 ^ (8 * Z.of_nat n))%Z.
Proof.
  revert z. induction n as [|n IH]; intros z Hz.
  - simpl. by rewrite Z.mod_1_r.
  - rewrite le_bytes_S. cbn [le_value foldr]. fold (le_value (le_bytes n (z ≫ 8))).
    rewrite IH, Z_of_byte_of_Z by (apply Z.shiftr_nonneg; lia).
    rewrite Z.shiftr_div_pow2 by lia.
    replace (8 * Z.of_nat (S n))%Z with (8 + 8 * Z.of_nat n)%Z by lia.
    rewrite Z.pow_add_r by lia. change (2 ^ 8)%Z with 256%Z.
    rewrite Z.rem_mul_r by lia. reflexivity.
Qed.

Lemma unpack_pack_I z bs :
  pack_I (PyInt z) = Ok bs → unpack_from_I bs 0 = Ok z.
Proof.
  unfold pack_I. case_decide as Hz; [|discriminate]. intros [= <-].
  unfold unpack_from_I, slice. rewrite decide_True by (rewrite length_le_bytes; lia).
  rewrite drop_0, take_ge by (rewrite length_le_bytes; lia).
  rewrite le_value_le_bytes by lia. f_equal. apply Z.mod_small. lia.
Qed.


Lemma unpack_from_I_slice rec off :
  off + 4 ≤ length rec → unpack_from_I rec off = Ok (le_value (slice off 4 rec)).
Proof. intros H. unfold unpack_from_I. by rewrite decide_True. Qed.

(** A packed record with its fields and what each step returned. *)
Lemma pack_record_inv d rec :
  pack_record (PyDict d) = Ok rec →
  ∃ f, rec = layout f ∧ sized f ∧ 2048 ≤ length rec ∧
    pack_I (default (PyInt 4) (d !! "uiVersion")) = Ok (f_version f) ∧
    text_bytes (default (PyStr (str_of "Foundry VTT User")) (d !! "name")) 255 510
      = Ok (f_name f) ∧
    text_bytes (default (PyStr (str_of "{}")) (d !! "identity")) 255 510
      = Ok (f_identity f) ∧
    (∃ n, len (default (PyList []) (d !! "context")) = Ok n ∧
          f_context_len f = le_bytes 4 (Z.of_nat (n `min` 256))) ∧
    context_bytes (default (PyList []) (d !! "context")) = Ok (f_context f) ∧
    text_bytes (default (PyStr (str_of "Foundry VTT")) (d !! "description")) 2047 4094
      = Ok (f_description f).
Proof.
  intros (f & Hf & ->)%pack_record_fields. exists f.
  pose proof (record_fields_sized _ _ Hf) as Hsz.
  apply record_fields_inv in Hf as (d' & [= <-] & Hf). cbv zeta in Hf.
  destruct Hf as (?&_&_&_&?&_&_&_&?&?&?&?).
  assert (2048 ≤ length (layout f)) by (rewrite length_layout by done; lia).
  repeat (split; [done|]). done.
Qed.

(** X1: the version field.  The record starts with the message's
    [uiVersion], 4 when the key is absent, as 32 unsigned bits that read
    back as the same number. *)
Theorem version_read_back d rec z :
  default (PyInt 4) (d !! "uiVersion") = PyInt z →
  pack_record (PyDict d) = Ok rec →
  unpack_from_I rec 0 = Ok z ∧ (0 ≤ z < 2 ^ 32)%Z.
Proof.
  intros Hv (f & -> & Hsz & Hlen & Hver & _)%pack_record_inv.
  rewrite Hv in Hver. rewrite unpack_from_I_slice, layout_version by (done || lia).
  pose proof (unpack_pack_I _ _ Hver) as Hz.
  rewrite unpack_from_I_slice in Hz by (rewrite (length_pack_I _ _ Hver); lia).
  unfold slice in Hz. rewrite drop_0, take_ge in Hz
    by (rewrite (length_pack_I _ _ Hver); lia).
  split; [done|]. unfold pack_I in Hver. by case_decide.
Qed.

Lemma version_read_back_witness :
  ∃ rec, pack_record version_two = Ok rec ∧
    unpack_from_I rec 0 = Ok 2%Z ∧ (0 ≤ 2 < 2 ^ 32)%Z.
Proof.
  destruct (pack_record version_two) as [rec|e] eqn:Hrec;
    [|vm_compute in Hrec; discriminate Hrec].
  exists rec. split; [reflexivity|].
  apply (version_read_back {[ "uiVersion" := PyInt 2 ]} rec 2);
    [reflexivity|exact Hrec].
Defined.

(** X2: a version that is not an integer of 32 unsigned bits.  The
    version is the first field packed: such a message raises
    [struct.error] there and the update is dropped, the helper as it
    was. *)
Theorem invalid_version_rejected d v system self mem :
  d !! "uiVersion" = Some v →
  (∀ z, v = PyInt z → ¬ (0 ≤ z < 2 ^ 32)%Z) → (∀ b, v ≠ PyBool b) →
  mumble_memory self = Some mem → memory_truthy mem = true →
  pack_record (PyDict d) = Raise struct_error ∧
  update_mumble_link system self (PyDict d) =
    Ok (self, [Log ERROR (FailedToUpdate struct_error)]).
Proof.
  intros Hv Hint Hbool Hmem Ht.
  assert (pack_record (PyDict d) = Raise struct_error) as Hrec.
  { rewrite pack_record_layout. unfold record_layout, record_fields.
    cbn [get]. rewrite Hv, bind_Ok. cbn [default]. cbv beta. unfold id.
    assert (pack_I v = Raise struct_error) as ->; [|done].
    destruct v; try done.
    - by destruct (Hbool b).
    - unfold pack_I. by rewrite decide_False by (by apply Hint). }
  split; [done|]. unfold update_mumble_link. by rewrite Hmem, Ht, Hrec.
Qed.

Lemma invalid_version_rejected_witness :
  pack_record negative_version = Raise struct_error ∧
  update_mumble_link "Linux" (mapped region41) negative_version =
    Ok (mapped region41, [Log ERROR (FailedToUpdate struct_error)]).
Proof.
  apply (invalid_version_rejected _ (PyInt (-1)) "Linux" (mapped region41)
           (Mmap region41 0)).
  - reflexivity.
  - intros z [= <-]. lia.
  - discriminate.
  - reflexivity.
  - reflexivity.
Defined.

(** X3: the context.  For a context that is a list, the length field at
    1104 reads back as [min(len(context), 256)], and the 256 bytes from
    1108 are the first 256 elements followed by zeros: what is past the
    256th element is dropped, and nothing is written beyond the field. *)
Theorem context_truncated d l rec :
  default (PyList []) (d !! "context") = PyList l →
  pack_record (PyDict d) = Ok rec →
  unpack_from_I rec 1104 = Ok (Z.of_nat (length l `min` 256)) ∧
  ∃ bs, byte_items (take 256 l) = Ok bs ∧
        length bs = length l `min` 256 ∧
        slice 1108 256 rec = pad 256 bs.
Proof.
  intros Hc (f & -> & Hsz & Hlen & _ & _ & _ & (n & Hn & Hcl) & Hcx & _)%pack_record_inv.
  rewrite Hc in Hn, Hcx. injection Hn as <-.
  rewrite unpack_from_I_slice, layout_context_len, layout_context, Hcl by (done || lia).
  split.
  - rewrite le_value_le_bytes by lia. f_equal. apply Z.mod_small. 
    change (2 ^ (8 * Z.of_nat 4))%Z with 4294967296%Z. lia.
  - exists (f_context f).
    assert (byte_items (take 256 l) = Ok (f_context f)) as Hbs.
    { unfold context_bytes in Hcx. destruct l; [by injection Hcx as <-|done]. }
    split; [done|]. split; [|done].
    rewrite (length_byte_items _ _ Hbs), length_take. lia.
Qed.

Lemma context_truncated_witness :
  ∃ rec, pack_record long_context = Ok rec ∧
    unpack_from_I rec 1104 = Ok 256%Z ∧
    ∃ bs, byte_items (take 256 (replicate 300 (PyInt 7))) = Ok bs ∧
          length bs = 256 ∧ slice 1108 256 rec = pad 256 bs.
Proof.
  destruct (pack_record long_context) as [rec|e] eqn:Hrec;
    [|vm_compute in Hrec; discriminate Hrec].
  exists rec. split; [reflexivity|].
  apply (context_truncated
           {[ "context" := PyList (replicate 300 (PyInt 7)) ]}
           (replicate 300 (PyInt 7)) rec); [reflexivity|exact Hrec].
Defined.


(** ** Texts read back *)

Lemma encode_plain_text s :
  plain_text s → encode_utf16le s = Ok (s ≫= utf16_unit).
Proof.
  induction 1 as [|c s Hc Hs IH]; [done|]. cbn [encode_utf16le].
  assert (encode_codepoint c = Ok (utf16_unit c)) as ->.
  { unfold encode_codepoint. repeat case_match; (done || lia). }
  by rewrite bind_Ok, IH, bind_Ok.
Qed.

Lemma length_utf16_units (s : list Z) : length (s ≫= utf16_unit) = 2 * length s.
Proof.
  induction s as [|c s IH]; [done|].
  cbn [mbind list_bind]. rewrite length_app, IH.
  unfold utf16_unit. rewrite length_le_bytes. simpl. lia.
Qed.

Lemma units_utf16_units s t :
  plain_text s → units ((s ≫= utf16_unit) ++ t) = s ++ units t.
Proof.
  induction 1 as [|c s Hc Hs IH]; [done|].
  cbn [mbind list_bind]. unfold utf16_unit at 1. rewrite !le_bytes_S.
  change (le_bytes 0 _) with (@nil byte). cbn [app units]. rewrite IH. f_equal.
  rewrite !Z_of_byte_of_Z, Z.shiftr_div_pow2 by lia. change (2 ^ 8)%Z with 256%Z.
  rewrite (Z.mod_small (c `div` 256) 256)
    by (split; [apply Z.div_pos; lia|apply Z.div_lt_upper_bound; lia]).
  pose proof (Z.div_mod c 256). lia.
Qed.

Lemma until_nul_plain s t :
  plain_text s → until_nul t = [] → until_nul (s ++ t) = s.
Proof.
  intros Hs Ht. induction Hs as [|c s Hc Hs IH]; [done|].
  cbn [app until_nul]. rewrite IH. by rewrite (proj2 (Z.eqb_neq c 0)) by lia.
Qed.

Lemma until_nul_zeros k : until_nul (units (replicate k x00)) = [].
Proof. by destruct k as [|[|k]]. Qed.

Lemma decode_wide_pad s n :
  plain_text s → decode_wide (pad n (s ≫= utf16_unit)) = s.
Proof.
  intros Hs. unfold decode_wide, pad.
  rewrite units_utf16_units by done. by apply until_nul_plain, until_nul_zeros.
Qed.

Lemma text_bytes_plain s chars n :
  plain_text s → 2 * chars ≤ n →
  text_bytes (PyStr s) chars n = Ok (take chars s ≫= utf16_unit).
Proof.
  intros Hs Hn. unfold text_bytes. cbn [getslice_to]. rewrite bind_Ok.
  cbn [encode]. rewrite encode_plain_text by (by apply Forall_take).
  rewrite bind_Ok.
  f_equal. apply take_ge. rewrite length_utf16_units, length_take. lia.
Qed.

(** X4: the texts read back.  When the name, the identity and the
    description are texts of the basic plane without NUL, the consumer
    reads from the three fields of a packed record the first 255
    characters of the name and of the identity and the first 2047 of the
    description: the truncation is by characters, and the byte budgets
    cut nothing more. *)
Theorem texts_read_back d name identity description rec :
  default (PyStr (str_of "Foundry VTT User")) (d !! "name") = PyStr name →
  default (PyStr (str_of "{}")) (d !! "identity") = PyStr identity →
  default (PyStr (str_of "Foundry VTT")) (d !! "description") = PyStr description →
  plain_text name → plain_text identity → plain_text description →
  pack_record (PyDict d) = Ok rec →
  decode_wide (slice 44 512 rec) = take 255 name ∧
  decode_wide (slice 592 512 rec) = take 255 identity ∧
  decode_wide (drop 1364 rec) = take 2047 description.
Proof.
  intros Hn Hi Hd Hpn Hpi Hpd
    (f & -> & Hsz & _ & _ & Hfn & Hfi & _ & _ & Hfd)%pack_record_inv.
  rewrite Hn, text_bytes_plain in Hfn by (done || lia).
  rewrite Hi, text_bytes_plain in Hfi by (done || lia).
  rewrite Hd, text_bytes_plain in Hfd by (done || lia).
  apply Ok_inj in Hfn, Hfi, Hfd.
  rewrite layout_name, layout_identity, layout_description by done.
  rewrite <- Hfn, <- Hfi, <- Hfd.
  by rewrite !decode_wide_pad by (by apply Forall_take).
Qed.

Lemma texts_read_back_witness :
  ∃ rec, pack_record bob = Ok rec ∧
    decode_wide (slice 44 512 rec) = take 255 (str_of "Bob") ∧
    decode_wide (slice 592 512 rec) = take 255 (str_of "{}") ∧
    decode_wide (drop 1364 rec) = take 2047 (str_of "Tavern").
Proof.
  destruct (pack_record bob) as [rec|e] eqn:Hrec;
    [|vm_compute in Hrec; discriminate Hrec].
  exists rec. split; [reflexivity|].
  unfold bob in Hrec.
  lazymatch type of Hrec with
  | pack_record (PyDict ?d) = _ =>
      apply (texts_read_back d (str_of "Bob") (str_of "{}") (str_of "Tavern") rec);
        [reflexivity..| | | |exact Hrec];
        unfold plain_text, str_of; simpl; repeat constructor; lia
  end.
Defined.

(** ** The size of the record, when it is right *)

Lemma length_encode_utf16le s b :
  encode_utf16le s = Ok b → length b ≤ 4 * length s.
Proof.
  revert b. induction s as [|c s IH]; intros b; cbn [encode_utf16le].
  - by intros [= <-].
  - destruct (encode_codepoint c) as [bc|] eqn:Hc; [|discriminate].
    rewrite bind_Ok. destruct (encode_utf16le s) as [bs|]; [|discriminate].
    rewrite bind_Ok. intros [= <-]. rewrite length_app. specialize (IH _ eq_refl).
    assert (length bc ≤ 4); [|simpl; lia].
    unfold encode_codepoint in Hc. cbv zeta in Hc.
    repeat case_match; simplify_eq;
      rewrite ?length_app; unfold utf16_unit; rewrite ?length_le_bytes;
      first [lia | cbn [length]; rewrite ?length_le_bytes; lia].
Qed.

(** X5: a record of 2048 bytes.  A description of at most 171
    characters, which no encoding takes past 684 bytes, or that no key
    gives, leaves the record at its 2048 bytes; on the Unix path the
    update then replaces a region of that size with the record. *)
Theorem short_description_fits d description rec system self c pos :
  default (PyStr (str_of "Foundry VTT")) (d !! "description") = PyStr description →
  length description ≤ 171 →
  pack_record (PyDict d) = Ok rec →
  system ≠ "Windows" →
  mumble_memory self = Some (Mmap c pos) → length c = 2048 →
  length rec = 2048 ∧
  update_mumble_link system self (PyDict d) =
    Ok (set_mumble_memory self (Mmap rec 2048), []).
Proof.
  intros Hd Hlen Hrec Hsys Hmem Hc.
  assert (length rec = 2048) as Hsize.
  { apply pack_record_inv in Hrec
      as (f & -> & Hsz & _ & _ & _ & _ & _ & _ & Hfd).
    rewrite length_layout by done. rewrite Hd in Hfd.
    unfold text_bytes in Hfd. cbn [getslice_to] in Hfd.
    rewrite bind_Ok in Hfd. cbn [encode] in Hfd.
    destruct (encode_utf16le (take 2047 description)) as [b|] eqn:Hb;
      [|discriminate].
    rewrite bind_Ok in Hfd. apply Ok_inj in Hfd as <-.
    apply length_encode_utf16le in Hb. rewrite length_take in Hb.
    cbn [f_description]. rewrite length_take. lia. }
  split; [done|]. unfold update_mumble_link.
  rewrite Hmem, Hrec. cbn [memory_truthy].
  rewrite bool_decide_false by lia. cbn [negb].
  unfold write_memory.
  rewrite decide_False, decide_True by (done || lia).
  unfold setslice. cbn [take app]. rewrite Nat.add_0_l, drop_ge, app_nil_r by lia.
  by rewrite Hsize.
Qed.

Lemma short_description_fits_witness :
  ∃ rec, pack_record alice = Ok rec ∧ length rec = 2048 ∧
    update_mumble_link "Linux" (mapped region41) alice =
      Ok (set_mumble_memory (mapped region41) (Mmap rec 2048), []).
Proof.
  destruct (pack_record alice) as [rec|e] eqn:Hrec;
    [|vm_compute in Hrec; discriminate Hrec].
  exists rec. split; [reflexivity|].
  unfold alice in *.
  lazymatch type of Hrec with
  | pack_record (PyDict ?d) = _ =>
      apply (short_description_fits d (str_of "Foundry VTT") rec "Linux"
               (mapped region41) region41 0);
        [reflexivity|simpl; lia|exact Hrec|discriminate|reflexivity|reflexivity]
  end.
Defined.


(** ** What a message is read for *)

(** X6: surrogates within the budget.  In a packed record the first 255
    characters of the name and of the identity, and the first 2047 of
    the description, hold no surrogate code point: a message with one
    there is not packed.  Characters past the budget are cut before the
    text is encoded and are not looked at. *)
Theorem packed_texts_well_formed d rec :
  pack_record (PyDict d) = Ok rec →
  (∀ s, default (PyStr (str_of "Foundry VTT User")) (d !! "name") = PyStr s →
        well_formed (take 255 s)) ∧
  (∀ s, default (PyStr (str_of "{}")) (d !! "identity") = PyStr s →
        well_formed (take 255 s)) ∧
  (∀ s, default (PyStr (str_of "Foundry VTT")) (d !! "description") = PyStr s →
        well_formed (take 2047 s)).
Proof.
  intros (f & _ & _ & _ & _ & Hfn & Hfi & _ & _ & Hfd)%pack_record_inv.
  repeat split; intros s Hs;
    [rewrite Hs in Hfn; rename Hfn into H
    |rewrite Hs in Hfi; rename Hfi into H
    |rewrite Hs in Hfd; rename Hfd into H];
    unfold text_bytes in H; cbn [getslice_to] in H; rewrite bind_Ok in H;
    cbn [encode] in H;
    (destruct (encode_utf16le (take _ s)) as [b|] eqn:Hb; [|discriminate]);
    by eapply encode_utf16le_Ok.
Qed.

Lemma packed_texts_well_formed_witness :
  ∃ rec, pack_record (PyDict late_surrogate) = Ok rec ∧
    well_formed (take 255 (replicate 255 97%Z ++ [0xD800%Z])).
Proof.
  destruct (pack_record (PyDict late_surrogate)) as [rec|e] eqn:Hrec;
    [|vm_compute in Hrec; discriminate Hrec].
  exists rec. split; [reflexivity|].
  apply (proj1 (packed_texts_well_formed late_surrogate rec Hrec)).
  reflexivity.
Defined.

Lemma floats_bytes_take3 l :
  floats_bytes (seq 0 3) (PyList (take 3 l)) = floats_bytes (seq 0 3) (PyList l).
Proof.
  cbn [seq floats_bytes getitem].
  by rewrite !lookup_take_lt by lia.
Qed.

Lemma floats_bytes_default_take3 l o :
  floats_bytes (seq 0 3) (default (PyList (take 3 l)) o) =
  floats_bytes (seq 0 3) (default (PyList l) o).
Proof. destruct o; [done|apply floats_bytes_take3]. Qed.

Lemma default_Some {A} (x y : A) : default x (Some y) = y.
Proof. reflexivity. Qed.

(** X7: the elements of a vector past the third.  Only [v[0]], [v[1]] and
    [v[2]] of a vector are read: a message whose vector is cut to its
    first three elements packs to the same result, record or exception. *)
Theorem vector_tail_ignored d key l :
  key ∈ vector_keys → d !! key = Some (PyList l) →
  pack_record (PyDict (<[key := PyList (take 3 l)]> d)) = pack_record (PyDict d).
Proof.
  intros Hkey Hl. rewrite !pack_record_layout. unfold record_layout. f_equal.
  unfold record_fields. cbn [get]. unfold mbind, result_bind. cbv beta iota.
  unfold vector_keys in Hkey.
  repeat (apply elem_of_cons in Hkey as [->|Hkey]);
    [..|by apply elem_of_nil in Hkey];
    rewrite ?lookup_insert_eq, ?lookup_insert_ne, ?Hl by done;
    rewrite ?default_Some;
    by rewrite ?floats_bytes_default_take3, ?floats_bytes_take3.
Qed.

Lemma vector_tail_ignored_witness :
  pack_record (PyDict (<["fAvatarPosition" :=
                           PyList (take 3 [PyInt 1; PyInt 2; PyInt 3; PyInt 4; PyInt 5])]>
                         long_position))
  = pack_record (PyDict long_position).
Proof.
  apply (vector_tail_ignored long_position "fAvatarPosition").
  - unfold vector_keys. apply elem_of_cons. by left.
  - reflexivity.
Defined.

(** X8: keys that are not read.  A key other than the eleven the update
    reads changes nothing in the result, whatever its value. *)
Theorem unknown_key_ignored d key v :
  key ∉ known_keys →
  pack_record (PyDict (<[key := v]> d)) = pack_record (PyDict d).
Proof.
  intros Hkey. rewrite !pack_record_layout. unfold record_layout. f_equal.
  unfold record_fields. cbn [get]. unfold known_keys in Hkey.
  by rewrite !lookup_insert_ne by (intros ->; set_solver).
Qed.

Lemma unknown_key_ignored_witness :
  pack_record (PyDict (<["volume" := PyInt 11]> long_position))
  = pack_record (PyDict long_position).
Proof.
  apply unknown_key_ignored. unfold known_keys. intros H.
  repeat (apply elem_of_cons in H as [H|H]; [discriminate H|]).
  by apply elem_of_nil in H.
Defined.


(** X9: a camera that is given.  A camera vector that the message has is
    packed in its place, at 556, 568 or 580, whatever the avatar vector
    is: the avatar's is the default only. *)
Theorem camera_given d rec :
  pack_record (PyDict d) = Ok rec →
  (∀ v, d !! "fCameraPosition" = Some v →
        floats_bytes (seq 0 3) v = Ok (slice 556 12 rec)) ∧
  (∀ v, d !! "fCameraFront" = Some v →
        floats_bytes (seq 0 3) v = Ok (slice 568 12 rec)) ∧
  (∀ v, d !! "fCameraTop" = Some v →
        floats_bytes (seq 0 3) v = Ok (slice 580 12 rec)).
Proof.
  intros (f & Hf & ->)%pack_record_fields.
  pose proof (record_fields_sized _ _ Hf) as Hsz.
  apply record_fields_inv in Hf as (d' & [= <-] & Hf). cbv zeta in Hf.
  destruct Hf as (_ & _ & _ & _ & _ & Hcp & Hcf & Hct & _).
  rewrite layout_camera_position, layout_camera_front, layout_camera_top by done.
  repeat split; intros v Hv; rewrite Hv in *; assumption.
Qed.

Lemma camera_given_witness :
  ∃ rec, pack_record (PyDict with_camera) = Ok rec ∧
    floats_bytes (seq 0 3) (PyList [PyInt 4; PyInt 5; PyInt 6])
      = Ok (slice 556 12 rec).
Proof.
  destruct (pack_record (PyDict with_camera)) as [rec|e] eqn:Hrec;
    [|vm_compute in Hrec; discriminate Hrec].
  exists rec. split; [reflexivity|].
  apply (proj1 (camera_given with_camera rec Hrec)). reflexivity.
Defined.




(** ** Updates *)

(** X10: an update returns.  Once [mumble_memory] is set, no message makes
    [update_mumble_link] raise: it returns with at most one error record
    logged, the region is of the size it was, and the other attributes
    of the helper are untouched. *)
Theorem update_returns system self mem data :
  mumble_memory self = Some mem →
  ∃ self' tr mem',
    update_mumble_link system self data = Ok (self', tr) ∧
    mumble_memory self' = Some mem' ∧
    length (region mem') = length (region mem) ∧
    clients self' = clients self ∧ link_name self' = link_name self ∧
    (tr = [] ∨ ∃ e, tr = [Log ERROR (FailedToUpdate e)]).
Proof.
  intros Hmem. unfold update_mumble_link. rewrite Hmem.
  destruct (negb (memory_truthy mem));
    [eexists self, _, mem; repeat split; eauto|].
  destruct (pack_record data) as [rec|e];
    [|eexists self, _, mem; repeat split; eauto].
  unfold write_memory. destruct (decide (system = "Windows")).
  - change (global "ctypes") with (@Raise () NameError). cbv iota.
    rewrite (set_mumble_memory_same self mem Hmem).
    eexists self, _, mem. repeat split; eauto.
  - destruct mem as [c pos|a c].
    + destruct (decide (length rec ≤ length c)).
      * exists (set_mumble_memory self (Mmap (setslice 0 rec c) (length rec))), [],
          (Mmap (setslice 0 rec c) (length rec)).
        split; [done|]. split; [done|]. split; [|by auto].
        cbn [region]. unfold setslice.
        rewrite !length_app, length_take, length_drop. lia.
      * eexists (set_mumble_memory self (Mmap c 0)), _, (Mmap c 0).
        repeat split; eauto.
    + rewrite (set_mumble_memory_same self _ Hmem).
      eexists self, _, _. repeat split; eauto.
Qed.

Lemma update_returns_witness :
  ∃ self' tr mem',
    update_mumble_link "Linux" (mapped region41) long_description = Ok (self', tr) ∧
    mumble_memory self' = Some mem' ∧
    length (region mem') = length (region (Mmap region41 0)) ∧
    clients self' = clients (mapped region41) ∧
    link_name self' = link_name (mapped region41) ∧
    (tr = [] ∨ ∃ e, tr = [Log ERROR (FailedToUpdate e)]).
Proof.
  apply (update_returns "Linux" (mapped region41) (Mmap region41 0)).
  reflexivity.
Defined.

Lemma update_writes_whole_record_witness :
  ∃ self' tr,
    update_mumble_link "Linux" (at_position 7 region41) long_description = Ok (self', tr) ∧
    (self' = at_position 7 region41 ∨
     (∃ rec, pack_record long_description = Ok rec ∧ length region41 < length rec ∧
             self' = set_mumble_memory (at_position 7 region41) (Mmap region41 0) ∧
             tr = [Log ERROR (FailedToUpdate ValueError)]) ∨
     (∃ rec, pack_record long_description = Ok rec ∧ length rec ≤ length region41 ∧
             self' = set_mumble_memory (at_position 7 region41)
                       (Mmap (rec ++ drop (length rec) region41) (length rec)) ∧
             tr = [])).
Proof.
  destruct (update_mumble_link "Linux" (at_position 7 region41) long_description)
    as [[self' tr]|e] eqn:Hup; [|vm_compute in Hup; discriminate Hup].
  exists self', tr. split; [reflexivity|].
  apply (update_writes_whole_record "Linux" (at_position 7 region41) long_description
           self' tr region41 7).
  - reflexivity.
  - exact Hup.
Defined.

(** A record that does not fit: the region keeps its bytes, the mapping
    is back at position 0. *)
Lemma refused_write_rewinds :
  update_mumble_link "Linux" (at_position 7 region41) long_description =
    Ok (at_position 0 region41, [Log ERROR (FailedToUpdate ValueError)]).
Proof. vm_compute. reflexivity. Qed.

(** X12: updates on Windows.  [ctypes] is a local name of
    [initialize_mumble_link]: in [update_mumble_link] the write of the
    Windows path raises [NameError] before [memmove] is called.  On
    Windows no update changes the helper or the region; a message that
    packs is logged as a failed update. *)
Theorem windows_update_writes_nothing self mem data :
  mumble_memory self = Some mem → memory_truthy mem = true →
  ∃ e, update_mumble_link "Windows" self data =
         Ok (self, [Log ERROR (FailedToUpdate e)]) ∧
       (∀ rec, pack_record data = Ok rec → e = NameError).
Proof.
  intros Hmem Ht. unfold update_mumble_link. rewrite Hmem, Ht. cbn [negb].
  destruct (pack_record data) as [rec|e].
  - exists NameError. split; [|done]. unfold write_memory.
    rewrite decide_True by done.
    change (global "ctypes") with (@Raise () NameError). cbv iota.
    by rewrite (set_mumble_memory_same self mem Hmem).
  - exists e. split; [done|]. discriminate.
Qed.

Lemma windows_update_writes_nothing_witness :
  ∃ e, update_mumble_link "Windows"
         (Helper ∅ PyNone (Some "MumbleLink") (Some (View 4096 region41))) alice =
         Ok (Helper ∅ PyNone (Some "MumbleLink") (Some (View 4096 region41)),
             [Log ERROR (FailedToUpdate e)]) ∧
       (∀ rec, pack_record alice = Ok rec → e = NameError).
Proof.
  apply (windows_update_writes_nothing _ (View 4096 region41)); reflexivity.
Defined.

(** ** Connections *)

Lemma update_clients system self data self' tr :
  update_mumble_link system self data = Ok (self', tr) →
  clients self' = clients self.
Proof.
  unfold update_mumble_link. destruct (mumble_memory self); [|discriminate].
  repeat case_match; intros [= <- _]; by destruct self.
Qed.

Lemma on_message_clients json_loads system self message :
  clients (on_message json_loads system self message).1 = clients self.
Proof.
  unfold on_message. destruct (json_loads message) as [data|]; [|done].
  destruct (update_mumble_link system self data) as [[self' tr]|] eqn:Hup; [|done].
  apply update_clients in Hup. by destruct (get data _ _).
Qed.

Lemma receive_clients json_loads system self messages :
  clients (receive json_loads system self messages).1 = clients self.
Proof.
  revert self. induction messages as [|m ms IH]; intros self; [done|].
  cbn [receive]. pose proof (on_message_clients json_loads system self m) as Hm.
  destruct (on_message json_loads system self m) as [self1 tr1].
  specialize (IH self1). destruct (receive json_loads system self1 ms).
  cbn [fst] in *. congruence.
Qed.

(** X13: the set of clients.  A connection is in [clients] while it is
    handled and out of it when [handle_client] ends, whatever it sent
    and however it closed; the other connections of the set stay. *)
Theorem handle_client_clients json_loads system self websocket messages closed :
  clients (handle_client json_loads system self websocket messages closed).1
    = clients self ∖ {[ websocket ]}.
Proof.
  unfold handle_client.
  pose proof (receive_clients json_loads system
                (set_clients self ({[websocket]} ∪ clients self)) messages) as H.
  destruct (receive _ _ _ _) as [self' tr]. cbn [fst clients set_clients] in *.
  rewrite H. set_solver.
Qed.

(** X15: a payload that is not an object.  A message that parses to
    anything but a JSON object has no [get]: the update fails on it with
    [AttributeError] and logs it, the f-string of the debug record fails
    in the same way and is logged by the handler of the loop; the helper
    is left as it was and the loop goes on. *)
Theorem non_object_payload json_loads system self mem message data :
  json_loads message = Some data → (∀ d, data ≠ PyDict d) →
  mumble_memory self = Some mem → memory_truthy mem = true →
  on_message json_loads system self message =
    (self, [Log ERROR (FailedToUpdate AttributeError);
            Log ERROR (ErrorProcessing AttributeError)]).
Proof.
  intros Hdata Hobj Hmem Ht. unfold on_message, update_mumble_link.
  rewrite Hdata, Hmem, Ht. cbn [negb].
  assert (pack_record data = Raise AttributeError) as ->.
  { rewrite pack_record_layout. unfold record_layout, record_fields.
    destruct data; try done. by destruct (Hobj d). }
  destruct data; try done. by destruct (Hobj d).
Qed.

Lemma non_object_payload_witness :
  on_message loads_array "Linux" (mapped region41) "[1]" =
    (mapped region41, [Log ERROR (FailedToUpdate AttributeError);
                       Log ERROR (ErrorProcessing AttributeError)]).
Proof.
  apply (non_object_payload loads_array "Linux" (mapped region41)
           (Mmap region41 0) "[1]" (PyList [PyInt 1])); try reflexivity.
  discriminate.
Defined.


(** ** Opening the region *)

(** X17: opening the link file.  On the Unix path
    [initialize_mumble_link] succeeds exactly when the helper has a link
    name and a file of at least 2048 bytes exists under it; it then
    holds a mapping of the first 2048 bytes, positioned at 0.  When it
    fails the helper is as it was, without [mumble_memory], and one
    record is logged. *)
Theorem initialize_unix w self :
  system w ≠ "Windows" →
  let '(self', ok, tr) := initialize_mumble_link w self in
  (ok = true ↔
     ∃ name c, link_name self = Some name ∧ resource w name = Some c ∧
               2048 ≤ length c) ∧
  (ok = true →
     ∃ c, mumble_memory self' = Some (Mmap c 0) ∧ length c = 2048 ∧
          tr = [Log INFO Connected]) ∧
  (ok = false → self' = self ∧ ∃ lvl msg, tr = [Log lvl msg] ∧ lvl ≠ INFO).
Proof.
  intros Hsys. unfold initialize_mumble_link, open_mumble_link.
  rewrite decide_False by done.
  destruct (link_name self) as [name|] eqn:Hname.
  - destruct (resource w name) as [c|] eqn:Hres.
    + destruct (decide (2048 ≤ length c)) as [Hc|Hc].
      * split; [split; [by eauto|done]|]. split; [|done]. intros _.
        eexists. split; [done|]. split; [|done]. rewrite length_take. lia.
      * split; [split; [done|]|].
        { intros (name' & c' & [= <-] & Hres' & Hc'). rewrite Hres in Hres'.
          injection Hres' as <-. lia. }
        split; [done|]. intros _. split; [done|]. by eexists _, _.
    + split; [split; [done|]|].
      { intros (name' & c' & [= <-] & Hres' & _). congruence. }
      split; [done|]. intros _. split; [done|]. by eexists _, _.
  - split; [split; [done|]|].
    { by intros (name' & c' & [=] & _). }
    split; [done|]. intros _. split; [done|]. by eexists _, _.
Qed.

Lemma initialize_unix_witness :
  let '(self', ok, tr) := initialize_mumble_link unix_with_link named_helper in
  (ok = true ↔
     ∃ name c, link_name named_helper = Some name ∧
               resource unix_with_link name = Some c ∧ 2048 ≤ length c) ∧
  (ok = true →
     ∃ c, mumble_memory self' = Some (Mmap c 0) ∧ length c = 2048 ∧
          tr = [Log INFO Connected]) ∧
  (ok = false →
     self' = named_helper ∧ ∃ lvl msg, tr = [Log lvl msg] ∧ lvl ≠ INFO).
Proof.
  apply (initialize_unix unix_with_link named_helper). discriminate.
Defined.

(** ** How the process ends *)

(** X18: how [main] ends.  The process serves (binds the listener and runs
    on) exactly when the platform is Windows, the mapping "MumbleLink"
    exists, [MapViewOfFile] gives a non-null address and the listener's
    address can be bound.  It ends with status 1 exactly when the
    platform is Linux or macOS (the traceback of [__init__]) or when,
    everything else being as for serving, the bind fails.  In every
    other case it ends with status 0. *)
Theorem main_outcome w host port :
  let serving_but_bind :=
    system w = "Windows" ∧ is_Some (resource w "MumbleLink") ∧ map_view w ≠ 0%Z in
  ((∃ self, (main w host port).2 = Running self) ↔
     serving_but_bind ∧ can_bind w = true) ∧
  ((main w host port).2 = Exit 1 ↔
     system w = "Linux" ∨ system w = "Darwin" ∨
     (serving_but_bind ∧ can_bind w = false)) ∧
  ((∃ self, (main w host port).2 = Running self) ∨
   (main w host port).2 = Exit 1 ∨ (main w host port).2 = Exit 0).
Proof.
  cbv zeta. unfold main.
  destruct (init_cases w) as [[HW ->]|[[HL ->]|[HU ->]]].
  - unfold start_server, initialize_mumble_link, open_mumble_link.
    rewrite decide_True by done. cbn [link_name mbind option_bind].
    destruct (resource w "MumbleLink") as [c|] eqn:Hres.
    + destruct (Z.eqb_spec (map_view w) 0) as [Hz|Hz].
      * cbn [negb snd]. split; [split; [intros [? [=]]|by intros [(_&_&?) _]]|].
        split; [|by auto]. split; [done|].
        intros [H|[H|[(_&_&?) _]]]; (done || congruence).
      * cbn [negb]. destruct (can_bind w); cbn [snd].
        -- split; [split; [by eauto|by eauto]|]. split; [|by eauto].
           split; [done|]. intros [H|[H|[_ ?]]]; (done || congruence).
        -- split; [split; [intros [? [=]]|by intros [_ ?]]|].
           split; [|by auto]. split; [|done]. intros _. by eauto 10.
    + cbn [negb snd]. split; [split; [intros [? [=]]|]|].
      { intros [(_ & [? ?] & _) _]. congruence. }
      split; [|by auto]. split; [done|].
      intros [H|[H|[(_ & [? ?] & _) _]]]; congruence.
  - cbn [snd]. split; [split; [intros [? [=]]|]|].
    { intros [(? & _) _]. destruct HL; congruence. }
    split; [|by auto]. split; [|done]. intros _. destruct HL; by auto.
  - assert (system w ≠ "Windows" ∧ system w ≠ "Linux" ∧ system w ≠ "Darwin")
      as (HW & HL & HD) by set_solver.
    unfold start_server, initialize_mumble_link, open_mumble_link.
    rewrite decide_False by done. cbn [link_name negb snd].
    split; [split; [intros [? [=]]|by intros [(? & _) _]]|].
    split; [|by auto]. split; [done|].
    intros [H|[H|[(? & _) _]]]; done.
Qed.

Lemma bind_needs_region_witness :
  Log INFO Connected ∈ (main mumble_running "localhost" 23456).1.
Proof.
  apply bind_needs_region.
  apply list_elem_of_lookup. by exists 2.
Defined.
